(** * transaction_security.py: the review workflow, embedded and verified

    The program walks a list of transactions.  Each one is assessed by
    [analyze_transaction_risk]; a low or medium verdict is approved on the
    spot, every other verdict starts the agent workflow whose tool
    [confirm_transaction] puts a question to a named reviewer, waits for the
    reply and answers with one of three sentences.  [main] then looks for the
    word "approved" in the workflow's answer and finally prints a summary.

    Modelling choices.
    - Python text is a [string] of code points below 256; [strip] and [lower]
      are Python's on that range.  [upper] is Python's except for the two
      code points (181 and 255) whose capital lies above 255: it leaves them
      alone.  It is only applied to risk levels.
    - A transaction is the dictionary built by [get_mock_transactions]: a
      record with one field per key, typed by the values stored there.  A
      float is only ever printed, so it is held as its printed text.
    - Effects (the keyboard, the clock, the workflow's event stream) are
      threaded through a state-and-exception monad whose state survives an
      exception, as a Python traceback leaves the world as it was.
    - The agent is a language model outside the repository: whether it
      calls [confirm_transaction], how often, with which arguments, and what
      it answers in the end is its own conduct.  That conduct is an input of
      the model, like the lines typed and the readings of the clock; what a
      statement needs of it is a hypothesis of the statement.  A call of the
      tool is run as the tool is written, once from its first line to its
      return.
    - Statements that only narrate progress on the terminal are left out;
      the summary printed at the end is kept. *)

From Stdlib Require Import String Ascii List Bool Arith Lia.
Import ListNotations.
Open Scope string_scope.

(** ** Python's string methods on code points below 256 *)

Module PyStr.

(** [str.isspace] of one character. *)
Definition is_space (c : ascii) : bool :=
  let n := nat_of_ascii c in
  (((9 <=? n) && (n <=? 13)) || ((28 <=? n) && (n <=? 32))
   || (n =? 133) || (n =? 160))%nat.

(** [str.lower] of one character: A..Z and the capitals 192..222 (but the
    multiplication sign 215) move up by 32. *)
Definition lower_char (c : ascii) : ascii :=
  let n := nat_of_ascii c in
  if (((65 <=? n) && (n <=? 90))
      || ((192 <=? n) && (n <=? 222) && negb (n =? 215)))%nat
  then ascii_of_nat (n + 32) else c.

Fixpoint lower (s : string) : string :=
  match s with
  | EmptyString => EmptyString
  | String c s' => String (lower_char c) (lower s')
  end.

(** [str.upper] of one character; the sharp s becomes two letters. *)
Definition upper_char (c : ascii) : string :=
  let n := nat_of_ascii c in
  if (n =? 223)%nat then "SS"
  else if (((97 <=? n) && (n <=? 122))
           || ((224 <=? n) && (n <=? 254) && negb (n =? 247)))%nat
       then String (ascii_of_nat (n - 32)) EmptyString
       else String c EmptyString.

Fixpoint upper (s : string) : string :=
  match s with
  | EmptyString => EmptyString
  | String c s' => upper_char c ++ upper s'
  end.

Fixpoint lstrip (s : string) : string :=
  match s with
  | EmptyString => EmptyString
  | String c s' => if is_space c then lstrip s' else s
  end.

Fixpoint rstrip (s : string) : string :=
  match s with
  | EmptyString => EmptyString
  | String c s' =>
      match rstrip s' with
      | EmptyString => if is_space c then EmptyString else String c EmptyString
      | r => String c r
      end
  end.

(** [s.strip()] *)
Definition strip (s : string) : string := rstrip (lstrip s).

(** [s.startswith(p)] *)
Fixpoint startswith (p s : string) : bool :=
  match p, s with
  | EmptyString, _ => true
  | String _ _, EmptyString => false
  | String a p', String b s' => Ascii.eqb a b && startswith p' s'
  end.

(** [p in s] *)
Fixpoint contains (p s : string) : bool :=
  startswith p s
  || match s with
     | EmptyString => false
     | String _ s' => contains p s'
     end.

(** [sep.join(l)] *)
Fixpoint join (sep : string) (l : list string) : string :=
  match l with
  | [] => EmptyString
  | [x] => x
  | x :: rest => x ++ sep ++ join sep rest
  end.

(** [c in p] for one character. *)
Fixpoint mem_char (c : ascii) (p : string) : bool :=
  match p with
  | EmptyString => false
  | String a p' => Ascii.eqb a c || mem_char c p'
  end.

Definition nl : string := String (ascii_of_nat 10) EmptyString.

End PyStr.
Import PyStr.

(** ** The data model *)

(** [class RiskLevel(str, Enum)] *)
Inductive RiskLevel := LOW | MEDIUM | HIGH | CRITICAL.

Definition RiskLevel_value (l : RiskLevel) : string :=
  match l with
  | LOW => "low"
  | MEDIUM => "medium"
  | HIGH => "high"
  | CRITICAL => "critical"
  end.

(** A float, held as the text [str] gives for it. *)
Definition PyFloat := string.

(** One dictionary of [get_mock_transactions]. *)
Record Transaction := mkTransaction {
  transaction_id : string;
  account_id : string;
  transaction_type : string;
  amount : PyFloat;
  currency : string;
  recipient : string;
  recipient_account : string;
  timestamp : string;
  location : string;
  ip_address : string;
  device_id : string;
  risk_level : string;
  risk_factors : list string;
  approved : bool;
  approved_by : option string;
  approval_date : option string
}.

(** The dictionary of [get_mock_account]. *)
Module Account.
Record t := mk {
  account_id : string;
  customer_name : string;
  account_type : string;
  balance : PyFloat;
  currency : string;
  daily_limit : PyFloat;
  country : string;
  usual_countries : list string;
  usual_transaction_amounts : list PyFloat;
  usual_recipients : list string;
  transaction_history_summary : string
}.
End Account.

(** The dictionary [analyze_transaction_risk] returns. *)
Module RiskAnalysis.
Record t := mk {
  risk_level : string;
  risk_factors : list string;
  risk_explanation : string
}.
End RiskAnalysis.

(** The two events of the workflow that the program handles. *)
Inductive Event :=
| InputRequiredEvent (prefix user_name : string)
| HumanResponseEvent (response user_name : string).

Definition is_InputRequiredEvent (e : Event) : bool :=
  match e with
  | InputRequiredEvent _ _ => true
  | HumanResponseEvent _ _ => false
  end.

Definition event_user_name (e : Event) : string :=
  match e with
  | InputRequiredEvent _ u => u
  | HumanResponseEvent _ u => u
  end.

Definition event_response (e : Event) : string :=
  match e with
  | InputRequiredEvent _ _ => EmptyString
  | HumanResponseEvent r _ => r
  end.

(** ** The world and the monad of effects *)

Record World := mkWorld {
  stdin : list string;       (* the lines [input()] has still to read *)
  now_iso : nat -> string;   (* [datetime.now().isoformat()] at the n-th reading *)
  clock : nat;               (* readings of the clock so far *)
  stream : list Event;       (* events written to the handler's stream, oldest first *)
  unseen : list Event;       (* those of them main's loop has not reached yet *)
  inbox : list Event         (* events sent to the workflow and not yet taken *)
}.

Inductive Exc :=
| EOFError                   (* [input()] at the end of the input *)
| Exception (message : string)
| NoMatchingEvent.           (* the waiting tool is never resumed *)

Inductive Result (A : Type) :=
| Ok (a : A)
| Raise (e : Exc).
Arguments Ok {A} a.
Arguments Raise {A} e.

Definition M (A : Type) : Type := World -> Result A * World.

Definition ret {A} (a : A) : M A := fun w => (Ok a, w).

Definition bind {A B} (c : M A) (k : A -> M B) : M B :=
  fun w =>
    match c w with
    | (Ok a, w') => k a w'
    | (Raise e, w') => (Raise e, w')
    end.

Definition raise {A} (e : Exc) : M A := fun w => (Raise e, w).

Notation "x <- c ;; k" := (bind c (fun x => k))
  (at level 61, c at next level, right associativity).
Notation "c ;;; k" := (bind c (fun _ => k))
  (at level 61, right associativity).

(** [input()] *)
Definition input : M string :=
  fun w =>
    match stdin w with
    | [] => (Raise EOFError, w)
    | line :: rest =>
        (Ok line, mkWorld rest (now_iso w) (clock w) (stream w) (unseen w) (inbox w))
    end.

(** [datetime.now().isoformat()] *)
Definition datetime_now_isoformat : M string :=
  fun w =>
    (Ok (now_iso w (clock w)),
     mkWorld (stdin w) (now_iso w) (S (clock w)) (stream w) (unseen w) (inbox w)).

(** [ctx.write_event_to_stream(ev)] *)
Definition write_event_to_stream (ev : Event) : M unit :=
  fun w =>
    (Ok tt,
     mkWorld (stdin w) (now_iso w) (clock w)
             (stream w ++ [ev]) (unseen w ++ [ev]) (inbox w)).

(** [handler.ctx.send_event(ev)] *)
Definition send_event (ev : Event) : M unit :=
  fun w =>
    (Ok tt,
     mkWorld (stdin w) (now_iso w) (clock w) (stream w) (unseen w) (inbox w ++ [ev])).

(** The body of main's [async for event in handler.stream_events()], run
    over the events it has not reached: an [InputRequiredEvent] is answered
    from the keyboard, under the name the event carries. *)
Fixpoint answer_events (evs : list Event) : M unit :=
  match evs with
  | [] => ret tt
  | ev :: rest =>
      (if is_InputRequiredEvent ev
       then response <- input ;;
            send_event (HumanResponseEvent response (event_user_name ev))
       else ret tt) ;;;
      answer_events rest
  end.

Definition take_unseen : M (list Event) :=
  fun w =>
    (Ok (unseen w),
     mkWorld (stdin w) (now_iso w) (clock w) (stream w) [] (inbox w)).

(** The first event of the inbox that is a [HumanResponseEvent] of the
    required user name is taken out of it. *)
Fixpoint take_matching (user_name : string) (l : list Event)
  : option (Event * list Event) :=
  match l with
  | [] => None
  | ev :: rest =>
      if negb (is_InputRequiredEvent ev) && String.eqb (event_user_name ev) user_name
      then Some (ev, rest)
      else match take_matching user_name rest with
           | Some (found, rest') => Some (found, ev :: rest')
           | None => None
           end
  end.

(** [await ctx.wait_for_event(HumanResponseEvent, requirements={"user_name": u})]:
    the tool is suspended, main's loop runs over the stream, and the tool
    resumes with the matching event. *)
Definition wait_for_event (user_name : string) : M Event :=
  evs <- take_unseen ;;
  answer_events evs ;;;
  fun w =>
    match take_matching user_name (inbox w) with
    | Some (ev, rest) =>
        (Ok ev, mkWorld (stdin w) (now_iso w) (clock w) (stream w) (unseen w) rest)
    | None => (Raise NoMatchingEvent, w)
    end.

(** ** The program *)

(** [get_mock_transactions()]; the clock is read once for each dictionary. *)
Definition get_mock_transactions : M (list Transaction) :=
  t1 <- datetime_now_isoformat ;;
  t2 <- datetime_now_isoformat ;;
  ret [ mkTransaction "TRX-001" "ACC-12345" "transfer" "1200.0" "USD"
          "Jane Smith" "ACC-67890" t1 "New York, USA" "192.168.1.1"
          "DEVICE-001" "low" [] false None None;
        mkTransaction "TRX-002" "ACC-12345" "wire" "25000.0" "USD"
          "Acme Corp" "ACC-99999" t2 "Lagos, Nigeria" "203.0.113.42"
          "DEVICE-002" "high"
          [ "Unusual destination country";
            "Amount exceeds typical transaction";
            "First-time recipient";
            "Unusual time of day" ]
          false None None ].

(** [get_mock_account()] *)
Definition get_mock_account : Account.t :=
  Account.mk "ACC-12345" "John Doe" "Checking" "35000.0" "USD" "10000.0"
    "United States" ["United States"; "Canada"] ["100.0"; "500.0"; "1000.0"]
    ["Jane Smith"; "Bob Johnson"; "Local Utility Co"]
    "Regular payroll deposits. Typical transfers to family members. Regular payments for utilities and subscriptions. No international transfers in the past 6 months.".

Definition high_risk_explanation : string :=
  "This transaction shows multiple risk factors including an unusual destination country (Nigeria), an amount significantly higher than typical transactions, and a first-time recipient. The transaction amount of $25,000 exceeds the usual transaction pattern and is being sent to a country not in the list of usual countries for this account.".

Definition low_risk_explanation : string :=
  "This transaction appears to be normal based on the account history and transaction patterns. The amount is within typical ranges, the recipient is known, and the location matches the account holder's usual activity area.".

(** [analyze_transaction_risk(llm, transaction, account)].  The prompt it
    builds is not sent anywhere (the call of the model is commented out in
    the source); the answer is read off the transaction's own label. *)
Definition analyze_transaction_risk (transaction : Transaction)
    (account : Account.t) : M RiskAnalysis.t :=
  if String.eqb (risk_level transaction) "high"
  then ret (RiskAnalysis.mk "high" (risk_factors transaction) high_risk_explanation)
  else ret (RiskAnalysis.mk "low" [] low_risk_explanation).

(** The alert of [confirm_transaction], line by line. *)
Definition confirmation_text (transaction_id : string) (amount : PyFloat)
    (currency transaction_type recipient risk_level : string)
    (risk_factors : list string) : string :=
  nl ++
  "    TRANSACTION SECURITY ALERT" ++ nl ++
  "    " ++ nl ++
  "    Transaction ID: " ++ transaction_id ++ nl ++
  "    Type: " ++ transaction_type ++ nl ++
  "    Amount: " ++ amount ++ " " ++ currency ++ nl ++
  "    Recipient: " ++ recipient ++ nl ++
  "    " ++ nl ++
  "    RISK ASSESSMENT: " ++ upper risk_level ++ nl ++
  "    " ++ nl ++
  "    RISK FACTORS:" ++ nl ++
  "    " ++ (match risk_factors with
             | [] => "None identified"
             | _ => join ", " risk_factors
             end) ++ nl ++
  "    " ++ nl ++
  "    THIS TRANSACTION HAS BEEN AUTOMATICALLY PAUSED DUE TO ITS "
    ++ upper risk_level ++ " RISK LEVEL." ++ nl ++
  "    ".

(** The three sentences [confirm_transaction] can return. *)
Definition approved_message (transaction_id : string) (amount : PyFloat)
    (currency reviewer_name : string) : string :=
  "Transaction " ++ transaction_id ++ " for " ++ amount ++ " " ++ currency
    ++ " has been approved by " ++ reviewer_name ++ ".".

Definition investigation_message (transaction_id : string) : string :=
  "Transaction " ++ transaction_id ++ " has been marked for further investigation.".

Definition rejected_message (transaction_id reviewer_name : string) : string :=
  "Transaction " ++ transaction_id ++ " has been rejected by " ++ reviewer_name ++ ".".

(** What [confirm_transaction] does with the reviewer's text once it has it. *)
Definition decide (raw : string) (transaction_id : string) (amount : PyFloat)
    (currency reviewer_name : string) : string :=
  let user_response := lower (strip raw) in
  if String.eqb user_response "yes"
  then approved_message transaction_id amount currency reviewer_name
  else if String.eqb user_response "investigate"
       then investigation_message transaction_id
       else rejected_message transaction_id reviewer_name.

(** The event [confirm_transaction] writes to the stream. *)
Definition confirmation_event (transaction_id : string) (amount : PyFloat)
    (currency transaction_type recipient risk_level : string)
    (risk_factors : list string) (reviewer_name : string) : Event :=
  InputRequiredEvent
    (confirmation_text transaction_id amount currency transaction_type
       recipient risk_level risk_factors
     ++ nl ++ nl ++ reviewer_name
     ++ ", do you authorize this transaction to proceed? (yes/no/investigate):")
    reviewer_name.

(** [confirm_transaction(ctx, ...)] *)
Definition confirm_transaction (transaction_id : string) (amount : PyFloat)
    (currency transaction_type recipient risk_level : string)
    (risk_factors : list string) (reviewer_name : string) : M string :=
  write_event_to_stream
    (confirmation_event transaction_id amount currency transaction_type
       recipient risk_level risk_factors reviewer_name) ;;;
  response <- wait_for_event reviewer_name ;;
  ret (decide (event_response response) transaction_id amount currency reviewer_name).

(** The [context_dict] main hands to the workflow. *)
Module ContextDict.
Record t := mk {
  transaction_id : string;
  amount : PyFloat;
  currency : string;
  transaction_type : string;
  recipient : string;
  risk_level : string;
  risk_factors : list string;
  reviewer_name : string
}.
End ContextDict.

(** [workflow.run] makes a handler of its own: nothing of an earlier run
    is pending in it. *)
Definition new_handler : M unit :=
  fun w => (Ok tt, mkWorld (stdin w) (now_iso w) (clock w) (stream w) [] []).

(** A call of the tool by the agent; the keyword arguments of
    [confirm_transaction] have the names of the dictionary's keys. *)
Definition call_confirm_transaction (kwargs : ContextDict.t) : M string :=
  confirm_transaction
    (ContextDict.transaction_id kwargs)
    (ContextDict.amount kwargs)
    (ContextDict.currency kwargs)
    (ContextDict.transaction_type kwargs)
    (ContextDict.recipient kwargs)
    (ContextDict.risk_level kwargs)
    (ContextDict.risk_factors kwargs)
    (ContextDict.reviewer_name kwargs).

(** What the agent of [create_workflow] does in one run: it gives its
    final answer, or calls its one tool with arguments of its choice and
    goes on from what the tool returned, or the run breaks (the model
    cannot be reached, the answer cannot be used). *)
Inductive Conduct :=
| Answer (text : string)
| Call (kwargs : ContextDict.t) (next : string -> Conduct)
| Fail (message : string).

(** The agent: its conduct for the message and the dictionary of a run. *)
Definition Agent : Type := string -> ContextDict.t -> Conduct.

Fixpoint run_conduct (c : Conduct) : M string :=
  match c with
  | Answer text => ret text
  | Call kwargs next =>
      result <- call_confirm_transaction kwargs ;;
      run_conduct (next result)
  | Fail message => raise (Exception message)
  end.

(** [await workflow.run(user_msg=..., context_dict=...)] together with
    main's loop over the handler's events, and [str] of what it returns. *)
Definition workflow_run (agent : Agent) (user_msg : string)
    (context_dict : ContextDict.t) : M string :=
  new_handler ;;;
  run_conduct (agent user_msg context_dict).

Definition reviewer_name : string := "Security Analyst Smith".

(** The two assignments that follow the analysis (lines 305-306). *)
Definition set_risk (t : Transaction) (level : string) (factors : list string)
  : Transaction :=
  mkTransaction (transaction_id t) (account_id t) (transaction_type t)
    (amount t) (currency t) (recipient t) (recipient_account t) (timestamp t)
    (location t) (ip_address t) (device_id t) level factors
    (approved t) (approved_by t) (approval_date t).

(** The three assignments of an approval (lines 315-317 and 358-360). *)
Definition set_approval (t : Transaction) (by_whom date : string) : Transaction :=
  mkTransaction (transaction_id t) (account_id t) (transaction_type t)
    (amount t) (currency t) (recipient t) (recipient_account t) (timestamp t)
    (location t) (ip_address t) (device_id t) (risk_level t) (risk_factors t)
    true (Some by_whom) (Some date).

(** The auto-approval step (lines 313-319). *)
Definition auto_approve (t : Transaction) : M Transaction :=
  date <- datetime_now_isoformat ;;
  ret (set_approval t "Auto-approval System" date).

(** The human confirmation (lines 321-360). *)
Definition human_confirmation (agent : Agent) (t : Transaction)
  : M Transaction :=
  response <-
    workflow_run agent
      ("Review this high-risk " ++ transaction_type t ++ " transaction for "
         ++ amount t ++ " " ++ currency t ++ " to " ++ recipient t)
      (ContextDict.mk (transaction_id t) (amount t) (currency t)
         (transaction_type t) (recipient t) (risk_level t) (risk_factors t)
         reviewer_name) ;;
  if contains "approved" (lower response)
  then date <- datetime_now_isoformat ;;
       ret (set_approval t reviewer_name date)
  else ret t.

(** What the loop does with a transaction once its analysis is there
    (lines 305-360). *)
Definition dispose (agent : Agent) (risk_analysis : RiskAnalysis.t)
    (t : Transaction) : M Transaction :=
  let t := set_risk t (RiskAnalysis.risk_level risk_analysis)
                      (RiskAnalysis.risk_factors risk_analysis) in
  if String.eqb (risk_level t) "low" || String.eqb (risk_level t) "medium"
  then auto_approve t
  else human_confirmation agent t.

Section Engine.

(** The agent of the workflow made at line 286. *)
Variable agent : Agent.

(** The evaluator awaited at line 304; the program's own is
    [analyze_transaction_risk]. *)
Variable evaluator : Transaction -> Account.t -> M RiskAnalysis.t.
Variable account : Account.t.

(** One turn of main's loop. *)
Definition process_transaction (t : Transaction) : M Transaction :=
  risk_analysis <- evaluator t account ;;
  dispose agent risk_analysis t.

(** The loop over the transactions; an exception ends it. *)
Fixpoint process_transactions (ts : list Transaction) : M (list Transaction) :=
  match ts with
  | [] => ret []
  | t :: rest =>
      t' <- process_transaction t ;;
      rest' <- process_transactions rest ;;
      ret (t' :: rest')
  end.

End Engine.

(** The status of the summary (line 365). *)
Definition status (t : Transaction) : string :=
  if approved t then "APPROVED" else "REJECTED".

Definition str_option (o : option string) : string :=
  match o with
  | Some s => s
  | None => "None"
  end.

(** The lines the summary prints for one transaction (lines 365-372). *)
Definition summary_lines (t : Transaction) : list string :=
  [ "- " ++ transaction_id t ++ " (" ++ transaction_type t ++ "): " ++ status t;
    "  Amount: " ++ amount t ++ " " ++ currency t;
    "  Risk Level: " ++ upper (risk_level t) ]
  ++ (if approved t
      then [ "  Approved by: " ++ str_option (approved_by t);
             "  Approval date: " ++ str_option (approval_date t) ]
      else [])
  ++ [ EmptyString ].

(** The summary (lines 363-372). *)
Definition transaction_summary (ts : list Transaction) : list string :=
  (nl ++ "===== TRANSACTION SUMMARY =====") :: flat_map summary_lines ts.

(** [main()]: the transactions as they end, and the summary printed. *)
Definition main (agent : Agent) : M (list Transaction * list string) :=
  transactions <- get_mock_transactions ;;
  let account := get_mock_account in
  transactions' <-
    process_transactions agent analyze_transaction_risk account transactions ;;
  ret (transactions', transaction_summary transactions').

(** The prompt of a transaction's session. *)
Definition session_prompt (t : Transaction) : Event :=
  confirmation_event (transaction_id t) (amount t) (currency t)
    (transaction_type t) (recipient t) (risk_level t) (risk_factors t)
    reviewer_name.

(** Prompts written to a stream. *)
Definition prompts (evs : list Event) : list Event :=
  filter is_InputRequiredEvent evs.

(** A world at the start of a run: nothing written, nothing pending. *)
Definition initial_world (keyboard : list string) (iso : nat -> string) : World :=
  mkWorld keyboard iso 0 [] [] [].

Definition sample_iso (n : nat) : string :=
  match n with
  | 0 => "2025-01-01T09:00:00.000001"
  | 1 => "2025-01-01T09:00:00.000002"
  | 2 => "2025-01-01T09:00:01.000000"
  | _ => "2025-01-01T09:00:07.500000"
  end.

(** ** Vocabulary of the statements *)

(** The reviewer's text as [confirm_transaction] compares it. *)
Definition normalized (raw : string) : string := lower (strip raw).

(** The test of line 313. *)
Definition auto_approvable (level : string) : bool :=
  String.eqb level "low" || String.eqb level "medium".

(** Two transactions that differ at most in [approved], [approved_by] and
    [approval_date]. *)
Definition same_but_disposition (t t' : Transaction) : Prop :=
  transaction_id t' = transaction_id t /\
  account_id t' = account_id t /\
  transaction_type t' = transaction_type t /\
  amount t' = amount t /\
  currency t' = currency t /\
  recipient t' = recipient t /\
  recipient_account t' = recipient_account t /\
  timestamp t' = timestamp t /\
  location t' = location t /\
  ip_address t' = ip_address t /\
  device_id t' = device_id t /\
  risk_level t' = risk_level t /\
  risk_factors t' = risk_factors t.

(** An agent that obeys its system prompt to the letter: one call of the
    tool with the entries of the dictionary, and the tool's sentence as its
    answer. *)
Definition obedient : Agent :=
  fun user_msg context_dict => Call context_dict Answer.

(** The agent relays: it conducts itself as [obedient] does. *)
Definition relays (agent : Agent) : Prop :=
  forall user_msg context_dict, agent user_msg context_dict = Call context_dict Answer.


(** An agent that calls the tool as [obedient] does and then answers in
    its own words. *)
Definition paraphrasing : Agent :=
  fun user_msg context_dict =>
    Call context_dict
      (fun result =>
         if String.eqb result
              (rejected_message (ContextDict.transaction_id context_dict)
                 (ContextDict.reviewer_name context_dict))
         then Answer ("Transaction " ++ ContextDict.transaction_id context_dict
                        ++ " was not approved by "
                        ++ ContextDict.reviewer_name context_dict ++ ".")
         else if String.eqb result
                   (investigation_message (ContextDict.transaction_id context_dict))
              then Answer result
              else Answer ("Transaction " ++ ContextDict.transaction_id context_dict
                             ++ " has been authorised by "
                             ++ ContextDict.reviewer_name context_dict ++ ".")).

(** An agent that answers at once, without calling the tool. *)
Definition hasty : Agent :=
  fun user_msg context_dict =>
    Answer ("Transaction " ++ ContextDict.transaction_id context_dict
              ++ " looks fine and is approved.").

(** A computation that leaves an observation of the world as it found it,
    whether it returns or raises. *)
Definition preserves {A B : Type} (f : World -> B) (c : M A) : Prop :=
  forall w, f (snd (c w)) = f w.

(** The clock, and the clock together with the stream. *)
Definition timing (w : World) : nat * (nat -> string) := (clock w, now_iso w).

Definition records (w : World) : nat * (nat -> string) * list Event :=
  (clock w, now_iso w, stream w).

(** The wire of the mock data, under a given identifier. *)
Definition wire_25000 (transaction_id : string) : Transaction :=
  mkTransaction transaction_id "ACC-12345" "wire" "25000.0" "USD"
    "Acme Corp" "ACC-99999" "2025-01-01T09:00:00.000002" "Lagos, Nigeria"
    "203.0.113.42" "DEVICE-002" "high"
    [ "Unusual destination country";
      "Amount exceeds typical transaction";
      "First-time recipient";
      "Unusual time of day" ]
    false None None.

(** The transfer of the mock data. *)
Definition transfer_1200 : Transaction :=
  mkTransaction "TRX-001" "ACC-12345" "transfer" "1200.0" "USD"
    "Jane Smith" "ACC-67890" "2025-01-01T09:00:00.000001" "New York, USA"
    "192.168.1.1" "DEVICE-001" "low" [] false None None.

(** ** Vocabulary of the further properties *)

(** A text made of white space only. *)
Fixpoint all_space (s : string) : bool :=
  match s with
  | EmptyString => true
  | String c s' => is_space c && all_space s'
  end.

(** The text starts with white space. *)
Definition head_space (s : string) : bool :=
  match s with
  | EmptyString => false
  | String c _ => is_space c
  end.

(** The text ends with white space. *)
Fixpoint last_space (s : string) : bool :=
  match s with
  | EmptyString => false
  | String c EmptyString => is_space c
  | String _ s' => last_space s'
  end.

(** Two transactions with the same eleven fields of identity and origin. *)
Definition same_identity (t t' : Transaction) : Prop :=
  transaction_id t' = transaction_id t /\
  account_id t' = account_id t /\
  transaction_type t' = transaction_type t /\
  amount t' = amount t /\
  currency t' = currency t /\
  recipient t' = recipient t /\
  recipient_account t' = recipient_account t /\
  timestamp t' = timestamp t /\
  location t' = location t /\
  ip_address t' = ip_address t /\
  device_id t' = device_id t.

(** An approved transaction names its approver and its date. *)
Definition well_disposed (t : Transaction) : Prop :=
  approved t = true -> approved_by t <> None /\ approval_date t <> None.

(** The label the mock evaluator looks for (line 197). *)
Definition labelled_high (t : Transaction) : bool :=
  String.eqb (risk_level t) "high".

(** A transaction carrying one of the declared risk levels as its label. *)
Definition labelled (level : RiskLevel) (t : Transaction) : Transaction :=
  set_risk t (RiskLevel_value level) (risk_factors t).


(** The replies main's loop sends for a run of events and the lines typed:
    one for each [InputRequiredEvent], in order, under the name the event
    carries. *)
Fixpoint replies_to (evs : list Event) (lines : list string) : list Event :=
  match evs with
  | [] => []
  | ev :: rest =>
      if is_InputRequiredEvent ev
      then match lines with
           | [] => []
           | line :: lines' =>
               HumanResponseEvent line (event_user_name ev) :: replies_to rest lines'
           end
      else replies_to rest lines
  end.

(** * Properties *)

(** ** Strings *)

Example strip_lower_padded_yes : lower (strip "  YES  ") = "yes".
Proof. reflexivity. Qed.

Example strip_keeps_inner_space : strip (nl ++ " a b " ++ nl) = "a b".
Proof. reflexivity. Qed.

Example contains_not_approved : contains "approved" "it was not approved." = true.
Proof. reflexivity. Qed.

Example upper_high : upper "high" = "HIGH".
Proof. reflexivity. Qed.

Lemma lower_app (a b : string) : lower (a ++ b) = lower a ++ lower b.
Proof.
  induction a as [|c a IH]; simpl; [reflexivity | now rewrite IH].
Qed.

Lemma startswith_app_l (p x y : string) :
  startswith p x = true -> startswith p (x ++ y) = true.
Proof.
  revert x; induction p as [|a p IH]; intros x H; [reflexivity|].
  destruct x as [|b x]; simpl in *; [discriminate|].
  apply andb_true_iff in H as [Hab Hp].
  now rewrite Hab, (IH _ Hp).
Qed.

Lemma contains_app_l (p x y : string) :
  contains p x = true -> contains p (x ++ y) = true.
Proof.
  induction x as [|b x IH]; intros H.
  - destruct p; simpl in H; [|discriminate].
    destruct y; reflexivity.
  - simpl in H. apply orb_true_iff in H as [H|H].
    + change (String b x ++ y) with (String b (x ++ y)).
      cbn [contains]. change (String b (x ++ y)) with (String b x ++ y).
      now rewrite (startswith_app_l _ _ _ H).
    + change (String b x ++ y) with (String b (x ++ y)).
      cbn [contains]. rewrite (IH H). apply orb_true_r.
Qed.

Lemma contains_app_r (p x y : string) :
  contains p y = true -> contains p (x ++ y) = true.
Proof.
  intros H; induction x as [|b x IH]; [exact H|].
  change (String b x ++ y) with (String b (x ++ y)).
  cbn [contains]. rewrite IH. apply orb_true_r.
Qed.

(** A character foreign to the pattern cuts a text in two for the search. *)
Lemma startswith_app_sep (p x y : string) (c : ascii) :
  mem_char c p = false ->
  startswith p (x ++ String c y) = startswith p x.
Proof.
  revert x; induction p as [|a p IH]; intros x Hc; [now destruct x|].
  simpl in Hc. apply orb_false_iff in Hc as [Hac Hp].
  destruct x as [|b x]; simpl.
  - now rewrite Hac.
  - now rewrite (IH _ Hp).
Qed.

Lemma contains_app_sep (p x y : string) (c : ascii) :
  mem_char c p = false ->
  contains p (x ++ String c y) = contains p x || contains p (String c y).
Proof.
  intros Hc; induction x as [|b x IH].
  - destruct p; [reflexivity|]. reflexivity.
  - change (String b x ++ String c y) with (String b (x ++ String c y)).
    cbn [contains].
    change (String b (x ++ String c y)) with (String b x ++ String c y).
    rewrite (startswith_app_sep _ _ _ _ Hc), IH.
    now rewrite orb_assoc.
Qed.

(** Where the word can sit in a sentence that starts with the
    transaction's identifier. *)
Lemma contains_approved_sentence (id tail : string) :
  contains "approved" (lower ("Transaction " ++ id ++ String " " tail))
  = contains "approved" (lower id)
    || contains "approved" (lower (String " " tail)).
Proof.
  change ("Transaction " ++ id ++ String " " tail)
    with ("Transaction" ++ String " " (id ++ String " " tail)).
  rewrite lower_app.
  change (lower (String " " (id ++ String " " tail)))
    with (String " " (lower (id ++ String " " tail))).
  rewrite contains_app_sep by reflexivity.
  change (contains "approved" (lower "Transaction")) with false.
  rewrite orb_false_l.
  cbn [contains startswith Ascii.eqb Bool.eqb andb orb].
  rewrite lower_app.
  change (lower (String " " tail)) with (String " " (lower tail)).
  now rewrite contains_app_sep by reflexivity.
Qed.

(** ** One run of the workflow *)

(** A run in which the agent calls the tool once, with a reply on the
    keyboard: one prompt, one line read, and the agent's answer to the
    tool's sentence for that line. *)
Lemma workflow_run_once_reply (agent : Agent) (user_msg : string)
    (cd kwargs : ContextDict.t) (text : string -> string) (w : World)
    (raw : string) (rest : list string) :
  agent user_msg cd = Call kwargs (fun result => Answer (text result)) ->
  stdin w = raw :: rest ->
  workflow_run agent user_msg cd w =
    (Ok (text (decide raw (ContextDict.transaction_id kwargs)
                 (ContextDict.amount kwargs) (ContextDict.currency kwargs)
                 (ContextDict.reviewer_name kwargs))),
     mkWorld rest (now_iso w) (clock w)
       (stream w ++
          [confirmation_event (ContextDict.transaction_id kwargs)
             (ContextDict.amount kwargs) (ContextDict.currency kwargs)
             (ContextDict.transaction_type kwargs) (ContextDict.recipient kwargs)
             (ContextDict.risk_level kwargs) (ContextDict.risk_factors kwargs)
             (ContextDict.reviewer_name kwargs)])
       [] []).
Proof.
  intros Hag Hin. destruct w as [inp iso clk str uns inb]; simpl in Hin; subst inp.
  unfold workflow_run. rewrite Hag. cbn [run_conduct].
  unfold call_confirm_transaction, confirm_transaction, wait_for_event, bind,
    new_handler, write_event_to_stream, take_unseen, confirmation_event.
  cbn -[confirmation_text decide String.eqb append].
  unfold bind, input, send_event, ret.
  cbn -[confirmation_text decide String.eqb append].
  rewrite String.eqb_refl. reflexivity.
Qed.

(** The same run with nothing on the keyboard: the prompt is out, and the
    run ends in [EOFError]. *)
Lemma workflow_run_once_no_reply (agent : Agent) (user_msg : string)
    (cd kwargs : ContextDict.t) (next : string -> Conduct) (w : World) :
  agent user_msg cd = Call kwargs next ->
  stdin w = [] ->
  workflow_run agent user_msg cd w =
    (Raise EOFError,
     mkWorld [] (now_iso w) (clock w)
       (stream w ++
          [confirmation_event (ContextDict.transaction_id kwargs)
             (ContextDict.amount kwargs) (ContextDict.currency kwargs)
             (ContextDict.transaction_type kwargs) (ContextDict.recipient kwargs)
             (ContextDict.risk_level kwargs) (ContextDict.risk_factors kwargs)
             (ContextDict.reviewer_name kwargs)])
       [] []).
Proof.
  intros Hag Hin. destruct w as [inp iso clk str uns inb]; simpl in Hin; subst inp.
  unfold workflow_run. rewrite Hag. reflexivity.
Qed.


Lemma obedient_relays : relays obedient.
Proof.
  intros user_msg cd. reflexivity.
Qed.

Lemma workflow_run_reply (agent : Agent) (user_msg : string) (cd : ContextDict.t)
    (w : World) (raw : string) (rest : list string) :
  relays agent ->
  stdin w = raw :: rest ->
  workflow_run agent user_msg cd w =
    (Ok (decide raw (ContextDict.transaction_id cd) (ContextDict.amount cd)
           (ContextDict.currency cd) (ContextDict.reviewer_name cd)),
     mkWorld rest (now_iso w) (clock w)
       (stream w ++
          [confirmation_event (ContextDict.transaction_id cd)
             (ContextDict.amount cd) (ContextDict.currency cd)
             (ContextDict.transaction_type cd) (ContextDict.recipient cd)
             (ContextDict.risk_level cd) (ContextDict.risk_factors cd)
             (ContextDict.reviewer_name cd)])
       [] []).
Proof.
  intros Hrel Hin.
  exact (workflow_run_once_reply agent user_msg cd cd (fun result => result)
           w raw rest (Hrel user_msg cd) Hin).
Qed.

Lemma workflow_run_no_reply (agent : Agent) (user_msg : string)
    (cd : ContextDict.t) (w : World) :
  relays agent ->
  stdin w = [] ->
  workflow_run agent user_msg cd w =
    (Raise EOFError,
     mkWorld [] (now_iso w) (clock w)
       (stream w ++
          [confirmation_event (ContextDict.transaction_id cd)
             (ContextDict.amount cd) (ContextDict.currency cd)
             (ContextDict.transaction_type cd) (ContextDict.recipient cd)
             (ContextDict.risk_level cd) (ContextDict.risk_factors cd)
             (ContextDict.reviewer_name cd)])
       [] []).
Proof.
  intros Hrel Hin.
  exact (workflow_run_once_no_reply agent user_msg cd cd Answer w
           (Hrel user_msg cd) Hin).
Qed.

Lemma human_confirmation_reply (agent : Agent) (t : Transaction) (w : World)
    (raw : string) (rest : list string) :
  relays agent ->
  stdin w = raw :: rest ->
  human_confirmation agent t w =
    if contains "approved"
         (lower (decide raw (transaction_id t) (amount t) (currency t) reviewer_name))
    then (Ok (set_approval t reviewer_name (now_iso w (clock w))),
          mkWorld rest (now_iso w) (S (clock w))
            (stream w ++ [session_prompt t]) [] [])
    else (Ok t,
          mkWorld rest (now_iso w) (clock w)
            (stream w ++ [session_prompt t]) [] []).
Proof.
  intros Hrel Hin. unfold human_confirmation, bind.
  rewrite (workflow_run_reply _ _ _ _ _ _ Hrel Hin).
  cbn [ContextDict.transaction_id ContextDict.amount ContextDict.currency
       ContextDict.reviewer_name ContextDict.transaction_type
       ContextDict.recipient ContextDict.risk_level ContextDict.risk_factors].
  fold (session_prompt t).
  destruct (contains "approved" _); reflexivity.
Qed.

Lemma human_confirmation_no_reply (agent : Agent) (t : Transaction) (w : World) :
  relays agent ->
  stdin w = [] ->
  human_confirmation agent t w =
    (Raise EOFError,
     mkWorld [] (now_iso w) (clock w) (stream w ++ [session_prompt t]) [] []).
Proof.
  intros Hrel Hin. unfold human_confirmation, bind.
  now rewrite (workflow_run_no_reply _ _ _ _ Hrel Hin).
Qed.

(** Whatever the agent does, main decides on its final answer alone: the
    transaction comes back as it went in, or approved in the reviewer's
    name at the time read after the answer. *)
Lemma human_confirmation_cases (agent : Agent) (t t' : Transaction) (w w' : World) :
  human_confirmation agent t w = (Ok t', w') ->
  t' = t \/ exists date, t' = set_approval t reviewer_name date.
Proof.
  unfold human_confirmation, bind.
  destruct (workflow_run agent _ _ w) as [[response|e] w1]; [|discriminate].
  destruct (contains "approved" (lower response)).
  - unfold datetime_now_isoformat, ret. intros H. injection H as <- _.
    right. eauto.
  - unfold ret. intros H. injection H as <- _. now left.
Qed.

(** ** Normalisation *)

Lemma is_space_lower_char (c : ascii) : is_space (lower_char c) = is_space c.
Proof.
  destruct c as [[] [] [] [] [] [] [] []]; reflexivity.
Qed.

Lemma lstrip_lower (s : string) : lstrip (lower s) = lower (lstrip s).
Proof.
  induction s as [|c s IH]; [reflexivity|].
  cbn [lower lstrip]. rewrite is_space_lower_char.
  destruct (is_space c); [exact IH | reflexivity].
Qed.

Lemma rstrip_lower (s : string) : rstrip (lower s) = lower (rstrip s).
Proof.
  induction s as [|c s IH]; [reflexivity|].
  cbn [lower rstrip]. rewrite IH, is_space_lower_char.
  destruct (rstrip s); cbn [lower]; [|reflexivity].
  destruct (is_space c); reflexivity.
Qed.

(** Lowering and stripping commute. *)
Lemma strip_lower (s : string) : strip (lower s) = lower (strip s).
Proof.
  unfold strip. now rewrite lstrip_lower, rstrip_lower.
Qed.


(** ** The word "approved" in the tool's three sentences *)


Lemma rejected_message_word (id : string) :
  contains "approved" (lower (rejected_message id reviewer_name))
  = contains "approved" (lower id).
Proof.
  unfold rejected_message.
  change (" has been rejected by " ++ reviewer_name ++ ".")
    with (String " " ("has been rejected by " ++ reviewer_name ++ ".")).
  rewrite contains_approved_sentence.
  apply orb_false_r.
Qed.


Lemma decide_yes (raw id : string) (amt : PyFloat) (cur rev : string) :
  normalized raw = "yes" -> decide raw id amt cur rev = approved_message id amt cur rev.
Proof.
  unfold decide, normalized. now intros ->.
Qed.

Lemma decide_investigate (raw id : string) (amt : PyFloat) (cur rev : string) :
  normalized raw = "investigate" ->
  decide raw id amt cur rev = investigation_message id.
Proof.
  unfold decide, normalized. now intros ->.
Qed.

Lemma decide_other (raw id : string) (amt : PyFloat) (cur rev : string) :
  normalized raw <> "yes" -> normalized raw <> "investigate" ->
  decide raw id amt cur rev = rejected_message id rev.
Proof.
  unfold decide, normalized. intros Hy Hi.
  destruct (String.eqb_spec (lower (strip raw)) "yes"); [contradiction|].
  destruct (String.eqb_spec (lower (strip raw)) "investigate"); [contradiction|].
  reflexivity.
Qed.

(** ** Routing *)

Lemma dispose_auto (agent : Agent) (ra : RiskAnalysis.t) (t : Transaction) :
  auto_approvable (RiskAnalysis.risk_level ra) = true ->
  dispose agent ra t
  = auto_approve (set_risk t (RiskAnalysis.risk_level ra) (RiskAnalysis.risk_factors ra)).
Proof.
  unfold dispose, auto_approvable. cbn [risk_level set_risk]. now intros ->.
Qed.

Lemma dispose_review (agent : Agent) (ra : RiskAnalysis.t) (t : Transaction) :
  auto_approvable (RiskAnalysis.risk_level ra) = false ->
  dispose agent ra t
  = human_confirmation agent
      (set_risk t (RiskAnalysis.risk_level ra) (RiskAnalysis.risk_factors ra)).
Proof.
  unfold dispose, auto_approvable. cbn [risk_level set_risk]. now intros ->.
Qed.


Lemma prompts_app (l l' : list Event) : prompts (l ++ l') = (prompts l ++ prompts l')%list.
Proof.
  apply filter_app.
Qed.

(** Under an agent that relays, a reply that is neither "yes" nor
    "investigate" leaves the transaction as it was, when its identifier
    does not hold the word "approved". *)
Lemma other_reply_leaves_transaction (agent : Agent) (t : Transaction) (w : World)
    (raw : string) (rest : list string) :
  relays agent ->
  stdin w = raw :: rest ->
  normalized raw <> "yes" -> normalized raw <> "investigate" ->
  contains "approved" (lower (transaction_id t)) = false ->
  human_confirmation agent t w =
    (Ok t, mkWorld rest (now_iso w) (clock w) (stream w ++ [session_prompt t]) [] []).
Proof.
  intros Hrel Hin Hy Hi Hid.
  rewrite (human_confirmation_reply _ _ _ _ _ Hrel Hin).
  rewrite decide_other by assumption.
  now rewrite rejected_message_word, Hid.
Qed.

(** For such an identifier, and a transaction that came in unapproved, the
    unrecognised reply ends in REJECTED. *)
Lemma unrecognized_reply_rejected (agent : Agent) (ra : RiskAnalysis.t)
    (t : Transaction) (w : World) (raw : string) (rest : list string) :
  relays agent ->
  auto_approvable (RiskAnalysis.risk_level ra) = false ->
  stdin w = raw :: rest ->
  normalized raw <> "yes" -> normalized raw <> "investigate" ->
  contains "approved" (lower (transaction_id t)) = false ->
  approved t = false ->
  let t0 := set_risk t (RiskAnalysis.risk_level ra) (RiskAnalysis.risk_factors ra) in
  fst (dispose agent ra t w) = Ok t0 /\ approved t0 = false /\ status t0 = "REJECTED".
Proof.
  intros Hrel Hlvl Hin Hy Hi Hid Ha t0.
  rewrite (dispose_review _ _ _ Hlvl). fold t0.
  rewrite (other_reply_leaves_transaction agent t0 w raw rest Hrel Hin Hy Hi Hid).
  unfold status. subst t0. cbn [fst approved set_risk]. now rewrite Ha.
Qed.


(** The transaction that leaves [dispose] is the one that entered with the
    verdict written in, with or without an approval on top; whatever the
    agent does. *)
Lemma dispose_cases (agent : Agent) (ra : RiskAnalysis.t) (t t' : Transaction)
    (w w' : World) :
  dispose agent ra t w = (Ok t', w') ->
  let t0 := set_risk t (RiskAnalysis.risk_level ra) (RiskAnalysis.risk_factors ra) in
  t' = t0 \/ exists who date, t' = set_approval t0 who date.
Proof.
  intros H t0.
  destruct (auto_approvable (RiskAnalysis.risk_level ra)) eqn:Hlvl.
  - rewrite (dispose_auto _ _ _ Hlvl) in H. fold t0 in H.
    unfold auto_approve, bind, datetime_now_isoformat, ret in H.
    injection H as <- _. right. eauto.
  - rewrite (dispose_review _ _ _ Hlvl) in H. fold t0 in H.
    destruct (human_confirmation_cases _ _ _ _ _ H) as [-> | (date & ->)];
      [now left | right; eauto].
Qed.

(** ** The claims *)

(** C1.  A reply that is neither "yes" nor "investigate" should reject and
    never approve.  The program does not honour it: main approves whenever
    the agent's final answer holds the word "approved" (line 357).  In
    main's own run the reply "no" makes the tool return its sentence of
    rejection for TRX-002; an agent that reports this as "was not approved"
    gets the wire approved in the reviewer's name and listed as APPROVED. *)
Theorem C1_reply_no_approved_on_paraphrase :
  normalized "no" <> "yes" /\ normalized "no" <> "investigate" /\
  decide "no" "TRX-002" "25000.0" "USD" reviewer_name
  = "Transaction TRX-002 has been rejected by Security Analyst Smith." /\
  match main paraphrasing (initial_world ["no"] sample_iso) with
  | (Ok (ts, summary), w) =>
      map status ts = ["APPROVED"; "APPROVED"] /\
      map approved_by ts
      = [Some "Auto-approval System"; Some "Security Analyst Smith"] /\
      In "- TRX-002 (wire): APPROVED" summary /\
      length (prompts (stream w)) = 1 /\ stdin w = []
  | (Raise _, _) => False
  end.
Proof.
  split; [discriminate|]. split; [discriminate|]. split; [reflexivity|].
  vm_compute. repeat split. auto 10.
Qed.










(** C6, as the program has it.  A verdict of level low or medium ends
    approved with the approver "Auto-approval System" and the time then
    read; nothing is written to the stream and nothing is read from the
    keyboard. *)
Theorem C6_low_or_medium_auto_approved (agent : Agent) (ra : RiskAnalysis.t)
    (t : Transaction) (w : World) :
  RiskAnalysis.risk_level ra = "low" \/ RiskAnalysis.risk_level ra = "medium" ->
  let t0 := set_risk t (RiskAnalysis.risk_level ra) (RiskAnalysis.risk_factors ra) in
  let t' := set_approval t0 "Auto-approval System" (now_iso w (clock w)) in
  dispose agent ra t w
  = (Ok t', mkWorld (stdin w) (now_iso w) (S (clock w))
              (stream w) (unseen w) (inbox w)) /\
  status t' = "APPROVED" /\
  approved_by t' = Some "Auto-approval System" /\
  prompts (stream (snd (dispose agent ra t w))) = prompts (stream w).
Proof.
  intros Hlvl t0 t'.
  assert (Ha : auto_approvable (RiskAnalysis.risk_level ra) = true)
    by (destruct Hlvl as [-> | ->]; reflexivity).
  rewrite (dispose_auto _ _ _ Ha). fold t0.
  repeat split.
Qed.

Lemma C6_witness :
  fst (dispose hasty (RiskAnalysis.mk "medium" ["New device"] EmptyString)
         transfer_1200 (initial_world [] sample_iso))
  = Ok (set_approval (set_risk transfer_1200 "medium" ["New device"])
          "Auto-approval System" (sample_iso 0)).
Proof.
  destruct (C6_low_or_medium_auto_approved hasty
              (RiskAnalysis.mk "medium" ["New device"] EmptyString) transfer_1200
              (initial_world [] sample_iso) (or_intror eq_refl)) as (Hd & _).
  now rewrite Hd.
Defined.

(** C6 at an input: in the program's own run the low-risk transfer TRX-001
    is approved by "Auto-approval System", which is not the identity
    "auto-approval-system". *)
Lemma C6_counterexample :
  match fst (main obedient (initial_world ["yes"] sample_iso)) with
  | Ok (t1 :: _, _) =>
      risk_level t1 = "low" /\
      approved_by t1 = Some "Auto-approval System" /\
      approved_by t1 <> Some "auto-approval-system"
  | _ => False
  end.
Proof.
  vm_compute. repeat split. discriminate.
Qed.

(** C9.  The reply is stripped and lowered before it is compared: when the
    tool is called and its answer relayed, a text whose stripped, lowered
    form is "yes" makes the workflow answer with the sentence of approval,
    and one whose form is "investigate" with the sentence of
    investigation. *)
Theorem C9_reply_is_normalized (user_msg : string) (cd : ContextDict.t)
    (w : World) (raw : string) (rest : list string) :
  stdin w = raw :: rest ->
  (lower (strip raw) = "yes" ->
   fst (workflow_run obedient user_msg cd w)
   = Ok (approved_message (ContextDict.transaction_id cd) (ContextDict.amount cd)
           (ContextDict.currency cd) (ContextDict.reviewer_name cd))) /\
  (lower (strip raw) = "investigate" ->
   fst (workflow_run obedient user_msg cd w)
   = Ok (investigation_message (ContextDict.transaction_id cd))).
Proof.
  intros Hin. rewrite (workflow_run_reply _ _ _ _ _ _ obedient_relays Hin). cbn [fst].
  split; intros Hraw.
  - now rewrite decide_yes.
  - now rewrite decide_investigate.
Qed.

Lemma C9_witness :
  let cd := ContextDict.mk "TRX-002" "25000.0" "USD" "wire" "Acme Corp" "high"
              [] "Security Analyst Smith" in
  fst (workflow_run obedient EmptyString cd (initial_world ["  YES  "] sample_iso))
  = Ok "Transaction TRX-002 for 25000.0 USD has been approved by Security Analyst Smith." /\
  fst (workflow_run obedient EmptyString cd
         (initial_world [String (ascii_of_nat 9) "Investigate "] sample_iso))
  = Ok "Transaction TRX-002 has been marked for further investigation.".
Proof.
  intros cd. split.
  - exact (proj1 (C9_reply_is_normalized EmptyString cd
                    (initial_world ["  YES  "] sample_iso) "  YES  " [] eq_refl)
                 eq_refl).
  - exact (proj2 (C9_reply_is_normalized EmptyString cd
                    (initial_world [String (ascii_of_nat 9) "Investigate "] sample_iso)
                    (String (ascii_of_nat 9) "Investigate ") [] eq_refl)
                 eq_refl).
Defined.

(** C10.  The auto-approval of a low or medium verdict writes the three
    disposition fields and nothing else: the transaction that comes out has
    the identifier, account, type, amount, currency, recipient, time stamp
    and origin of the one that went in, and the risk level and factors that
    were assigned from the verdict just before. *)
Theorem C10_auto_approval_frame (agent : Agent) (ra : RiskAnalysis.t)
    (t : Transaction) (w : World) :
  RiskAnalysis.risk_level ra = "low" \/ RiskAnalysis.risk_level ra = "medium" ->
  let t0 := set_risk t (RiskAnalysis.risk_level ra) (RiskAnalysis.risk_factors ra) in
  exists t' : Transaction,
    fst (dispose agent ra t w) = Ok t' /\
    fst (auto_approve t0 w) = Ok t' /\
    same_but_disposition t0 t' /\
    transaction_id t' = transaction_id t /\
    risk_level t' = RiskAnalysis.risk_level ra /\
    risk_factors t' = RiskAnalysis.risk_factors ra.
Proof.
  intros Hlvl t0.
  assert (Ha : auto_approvable (RiskAnalysis.risk_level ra) = true)
    by (destruct Hlvl as [-> | ->]; reflexivity).
  exists (set_approval t0 "Auto-approval System" (now_iso w (clock w))).
  rewrite (dispose_auto _ _ _ Ha). fold t0.
  repeat split.
Qed.

Lemma C10_witness :
  exists t' : Transaction,
    fst (dispose hasty (RiskAnalysis.mk "low" [] low_risk_explanation) transfer_1200
           (initial_world [] sample_iso)) = Ok t' /\
    same_but_disposition transfer_1200 t'.
Proof.
  destruct (C10_auto_approval_frame hasty
              (RiskAnalysis.mk "low" [] low_risk_explanation) transfer_1200
              (initial_world [] sample_iso) (or_introl eq_refl))
    as (t' & Hd & _ & Hsame & _).
  exists t'. split; [exact Hd | exact Hsame].
Defined.

(** ** The program's own run *)

(** The mock evaluator knows two answers: "high" for a transaction labelled
    "high", "low" for every other label; it never fails. *)
Lemma analyze_transaction_risk_levels (t : Transaction) (account : Account.t)
    (w : World) :
  exists ra, analyze_transaction_risk t account w = (Ok ra, w) /\
    (RiskAnalysis.risk_level ra = "high" \/ RiskAnalysis.risk_level ra = "low").
Proof.
  unfold analyze_transaction_risk.
  destruct (String.eqb (risk_level t) "high"); eexists; split;
    try reflexivity; auto.
Qed.

(** So a transaction that arrives labelled "critical" is assessed "low" by
    the mock evaluator and approved without a question. *)
Example critical_label_assessed_low :
  match process_transaction obedient analyze_transaction_risk get_mock_account
          (set_risk (wire_25000 "TRX-003") "critical" ["Sanctioned counterparty"])
          (initial_world [] sample_iso) with
  | (Ok t', w) =>
      risk_level t' = "low" /\ approved_by t' = Some "Auto-approval System" /\
      prompts (stream w) = []
  | (Raise _, _) => False
  end.
Proof.
  vm_compute. repeat split.
Qed.

(** End to end with an agent that relays: the transfer is approved without
    a question, the wire is put to the reviewer once and approved on
    "yes". *)
Example main_reply_yes :
  match main obedient (initial_world ["yes"] sample_iso) with
  | (Ok (ts, _), w) =>
      map status ts = ["APPROVED"; "APPROVED"] /\
      map approved_by ts = [Some "Auto-approval System"; Some "Security Analyst Smith"] /\
      length (prompts (stream w)) = 1 /\ stdin w = []
  | (Raise _, _) => False
  end.
Proof.
  vm_compute. repeat split.
Qed.

(** * Further properties of the code *)

(** ** [strip], [lower] and [in] (lines 253 and 357) *)

Lemma append_nil_r (s : string) : s ++ EmptyString = s.
Proof.
  induction s as [|c s IH]; simpl; [reflexivity | now rewrite IH].
Qed.

Lemma append_assoc (a b c : string) : (a ++ b) ++ c = a ++ (b ++ c).
Proof.
  induction a as [|x a IH]; simpl; [reflexivity | now rewrite IH].
Qed.

Lemma append_inv_head (a x y : string) : a ++ x = a ++ y -> x = y.
Proof.
  induction a as [|c a IH]; simpl; intros H; [exact H|].
  injection H as H. exact (IH H).
Qed.

Lemma lstrip_split (s : string) :
  exists l, s = l ++ lstrip s /\ all_space l = true /\ head_space (lstrip s) = false.
Proof.
  induction s as [|c s (l & Hs & Hl & Hh)].
  - exists EmptyString. repeat split.
  - cbn [lstrip]. destruct (is_space c) eqn:Hc.
    + exists (String c l). cbn [append all_space]. rewrite Hc, Hl, <- Hs.
      repeat split. exact Hh.
    + exists EmptyString. cbn [append all_space head_space]. now rewrite Hc.
Qed.

Lemma rstrip_split (s : string) :
  exists r, s = rstrip s ++ r /\ all_space r = true /\ last_space (rstrip s) = false.
Proof.
  induction s as [|c s (r & Hs & Hr & Hlast)].
  - exists EmptyString. repeat split.
  - cbn [rstrip]. destruct (rstrip s) as [|d u] eqn:Hu.
    + simpl in Hs. subst s. destruct (is_space c) eqn:Hc.
      * exists (String c r). cbn [append all_space]. now rewrite Hc, Hr.
      * exists r. cbn [append last_space]. now rewrite Hc.
    + exists r. rewrite Hs. repeat split; [exact Hr | exact Hlast].
Qed.

Lemma rstrip_head (s : string) : head_space s = false -> head_space (rstrip s) = false.
Proof.
  destruct s as [|c s]; [reflexivity|].
  cbn [head_space rstrip]. intros Hc.
  destruct (rstrip s); cbn [head_space]; [now rewrite Hc | exact Hc].
Qed.

Lemma lstrip_all_space (l x : string) :
  all_space l = true -> lstrip (l ++ x) = lstrip x.
Proof.
  induction l as [|c l IH]; [reflexivity|].
  cbn [all_space append lstrip]. intros H.
  apply andb_true_iff in H as [Hc Hl]. now rewrite Hc, IH.
Qed.

Lemma lstrip_no_head (x : string) : head_space x = false -> lstrip x = x.
Proof.
  destruct x as [|c x]; [reflexivity|].
  cbn [head_space lstrip]. now intros ->.
Qed.

Lemma rstrip_all_space (r : string) : all_space r = true -> rstrip r = EmptyString.
Proof.
  induction r as [|c r IH]; [reflexivity|].
  cbn [all_space rstrip]. intros H.
  apply andb_true_iff in H as [Hc Hr]. now rewrite (IH Hr), Hc.
Qed.

Lemma rstrip_core (core r : string) :
  last_space core = false -> all_space r = true -> rstrip (core ++ r) = core.
Proof.
  intros Hlast Hr. induction core as [|c core IH].
  - now apply rstrip_all_space.
  - cbn [append rstrip]. destruct core as [|d core].
    + cbn [append]. rewrite (rstrip_all_space _ Hr).
      cbn [last_space] in Hlast. now rewrite Hlast.
    + rewrite IH by exact Hlast. reflexivity.
Qed.

(** What [strip] gives for a core wrapped in white space. *)
Lemma strip_wrapped (l core r : string) :
  all_space l = true -> all_space r = true ->
  head_space core = false -> last_space core = false ->
  strip (l ++ core ++ r) = core.
Proof.
  intros Hl Hr Hh Hlast. unfold strip.
  rewrite (lstrip_all_space _ _ Hl).
  destruct core as [|c core].
  - cbn [append].
    assert (Hx : lstrip r = EmptyString).
    { clear -Hr. induction r as [|c r IH]; [reflexivity|].
      cbn [all_space lstrip] in *. apply andb_true_iff in Hr as [Hc Hr].
      now rewrite Hc, IH. }
    now rewrite Hx.
  - rewrite lstrip_no_head by exact Hh.
    now apply rstrip_core.
Qed.

Lemma strip_split (s : string) :
  exists l r, s = l ++ strip s ++ r /\ all_space l = true /\ all_space r = true /\
              head_space (strip s) = false /\ last_space (strip s) = false.
Proof.
  destruct (lstrip_split s) as (l & Hs & Hl & Hh).
  destruct (rstrip_split (lstrip s)) as (r & Hs' & Hr & Hlast).
  exists l, r. unfold strip.
  rewrite <- Hs', <- Hs. repeat split; auto using rstrip_head.
Qed.

Lemma head_space_lower (s : string) : head_space (lower s) = head_space s.
Proof.
  destruct s; [reflexivity | apply is_space_lower_char].
Qed.

Lemma last_space_lower (s : string) : last_space (lower s) = last_space s.
Proof.
  induction s as [|c s IH]; [reflexivity|].
  cbn [lower]. destruct s as [|d s].
  - apply is_space_lower_char.
  - exact IH.
Qed.

Lemma lower_char_idempotent (c : ascii) : lower_char (lower_char c) = lower_char c.
Proof.
  destruct c as [[] [] [] [] [] [] [] []]; reflexivity.
Qed.

Lemma lower_idempotent (s : string) : lower (lower s) = lower s.
Proof.
  induction s as [|c s IH]; [reflexivity|].
  cbn [lower]. now rewrite lower_char_idempotent, IH.
Qed.

Lemma strip_idempotent (s : string) : strip (strip s) = strip s.
Proof.
  destruct (strip_split s) as (_ & _ & _ & _ & _ & Hh & Hlast).
  rewrite <- (append_nil_r (strip s)) at 1.
  exact (strip_wrapped EmptyString (strip s) EmptyString eq_refl eq_refl Hh Hlast).
Qed.

(** Every text is its stripped form between two runs of white space, and
    the stripped form neither starts nor ends with white space. *)
Theorem strip_is_the_core (s : string) :
  exists l r, s = l ++ strip s ++ r /\ all_space l = true /\ all_space r = true /\
              head_space (strip s) = false /\ last_space (strip s) = false.
Proof.
  exact (strip_split s).
Qed.

(** The replies that normalise to a given word are exactly that word in any
    mix of capitals, wrapped in white space. *)
Theorem normalized_eq_iff (target raw : string) :
  head_space target = false -> last_space target = false ->
  (normalized raw = target <->
   exists l core r, raw = l ++ core ++ r /\ all_space l = true /\
                    all_space r = true /\ lower core = target).
Proof.
  intros Hh Hlast. unfold normalized. split.
  - intros H. destruct (strip_split raw) as (l & r & Hs & Hl & Hr & _).
    exists l, (strip raw), r. repeat split; assumption.
  - intros (l & core & r & -> & Hl & Hr & Hcore).
    rewrite strip_wrapped; try assumption.
    + now rewrite <- head_space_lower, Hcore.
    + now rewrite <- last_space_lower, Hcore.
Qed.

Lemma normalized_eq_iff_witness :
  normalized "  InVestigate " = "investigate" <->
  exists l core r, "  InVestigate " = l ++ core ++ r /\ all_space l = true /\
                   all_space r = true /\ lower core = "investigate".
Proof.
  exact (normalized_eq_iff "investigate" "  InVestigate " eq_refl eq_refl).
Defined.

(** Normalising twice is normalising once. *)
Theorem normalized_idempotent (raw : string) :
  normalized (normalized raw) = normalized raw.
Proof.
  unfold normalized.
  now rewrite <- strip_lower, lower_idempotent, strip_lower, strip_idempotent.
Qed.

Lemma startswith_self (p r : string) : startswith p (p ++ r) = true.
Proof.
  induction p as [|a p IH]; [reflexivity|].
  cbn [append startswith]. now rewrite Ascii.eqb_refl, IH.
Qed.

Lemma startswith_elim (p s : string) :
  startswith p s = true -> exists r, s = p ++ r.
Proof.
  revert s; induction p as [|a p IH]; intros s H.
  - now exists s.
  - destruct s as [|b s]; cbn [startswith] in H; [discriminate|].
    apply andb_true_iff in H as [Hab Hp].
    apply Ascii.eqb_eq in Hab as ->.
    destruct (IH _ Hp) as (r & ->). now exists r.
Qed.

Lemma contains_intro (p l r : string) : contains p (l ++ p ++ r) = true.
Proof.
  apply contains_app_r.
  destruct (p ++ r) eqn:E; cbn [contains]; rewrite <- E, startswith_self; reflexivity.
Qed.

Lemma contains_elim (p s : string) :
  contains p s = true -> exists l r, s = l ++ p ++ r.
Proof.
  induction s as [|c s IH]; cbn [contains]; intros H.
  - rewrite orb_false_r in H. destruct (startswith_elim _ _ H) as (r & Hr).
    now exists EmptyString, r.
  - apply orb_true_iff in H as [H|H].
    + destruct (startswith_elim _ _ H) as (r & Hr). now exists EmptyString, r.
    + destruct (IH H) as (l & r & ->). now exists (String c l), r.
Qed.

(** [p in s] holds exactly when [s] is some text, then [p], then some text. *)
Theorem contains_iff_infix (p s : string) :
  contains p s = true <-> exists l r, s = l ++ p ++ r.
Proof.
  split.
  - apply contains_elim.
  - intros (l & r & ->). apply contains_intro.
Qed.

(** ** The three sentences of [confirm_transaction] (lines 253-260) *)

Lemma approved_not_investigation (id : string) (amt : PyFloat) (cur rev : string) :
  approved_message id amt cur rev <> investigation_message id.
Proof.
  unfold approved_message, investigation_message. intros H.
  apply append_inv_head, append_inv_head in H. discriminate H.
Qed.

Lemma approved_not_rejected (id : string) (amt : PyFloat) (cur rev : string) :
  approved_message id amt cur rev <> rejected_message id rev.
Proof.
  unfold approved_message, rejected_message. intros H.
  apply append_inv_head, append_inv_head in H. discriminate H.
Qed.

Lemma investigation_not_rejected (id rev : string) :
  investigation_message id <> rejected_message id rev.
Proof.
  unfold investigation_message, rejected_message. intros H.
  apply append_inv_head, append_inv_head in H. discriminate H.
Qed.

(** The sentence tells the branch: for one transaction the three sentences
    differ, so the answer is the sentence of approval exactly for a reply
    that normalises to "yes", the sentence of investigation exactly for
    "investigate", and the sentence of rejection exactly for the rest. *)
Theorem decide_reads_back (raw id : string) (amt : PyFloat) (cur rev : string) :
  (decide raw id amt cur rev = approved_message id amt cur rev
   <-> normalized raw = "yes") /\
  (decide raw id amt cur rev = investigation_message id
   <-> normalized raw = "investigate") /\
  (decide raw id amt cur rev = rejected_message id rev
   <-> normalized raw <> "yes" /\ normalized raw <> "investigate").
Proof.
  pose proof (approved_not_investigation id amt cur rev) as Hai.
  pose proof (approved_not_rejected id amt cur rev) as Har.
  pose proof (investigation_not_rejected id rev) as Hir.
  unfold decide. fold (normalized raw).
  destruct (String.eqb_spec (normalized raw) "yes") as [Hy|Hy].
  - rewrite Hy. intuition (congruence || discriminate).
  - destruct (String.eqb_spec (normalized raw) "investigate") as [Hi|Hi];
      intuition congruence.
Qed.






(** ** What the loop does to a transaction, whatever the agent and the evaluator (lines 296-360) *)

Lemma bind_ok {A B : Type} (c : M A) (k : A -> M B) (w w' : World) (b : B) :
  bind c k w = (Ok b, w') ->
  exists a w1, c w = (Ok a, w1) /\ k a w1 = (Ok b, w').
Proof.
  unfold bind. destruct (c w) as [[a|e] w1]; intros H; [|discriminate].
  now exists a, w1.
Qed.

Lemma dispose_same_identity (agent : Agent) (ra : RiskAnalysis.t)
    (t t' : Transaction) (w w' : World) :
  dispose agent ra t w = (Ok t', w') -> same_identity t t'.
Proof.
  intros H. destruct (dispose_cases _ _ _ _ _ _ H) as [-> | (who & date & ->)];
    repeat split.
Qed.

Lemma dispose_well_disposed (agent : Agent) (ra : RiskAnalysis.t)
    (t t' : Transaction) (w w' : World) :
  dispose agent ra t w = (Ok t', w') -> well_disposed t -> well_disposed t'.
Proof.
  intros H Hwd. destruct (dispose_cases _ _ _ _ _ _ H) as [-> | (who & date & ->)].
  - exact Hwd.
  - intros _. split; discriminate.
Qed.

(** main never takes an approval back: a transaction that enters the loop
    approved leaves it approved, whatever the verdict, whatever the agent
    does and whatever the reviewer answers. *)
Theorem dispose_never_revokes (agent : Agent) (ra : RiskAnalysis.t)
    (t t' : Transaction) (w w' : World) :
  dispose agent ra t w = (Ok t', w') ->
  approved t = true ->
  approved t' = true /\ status t' = "APPROVED".
Proof.
  intros H Ha. unfold status.
  destruct (dispose_cases _ _ _ _ _ _ H) as [-> | (who & date & ->)];
    cbn [approved set_risk set_approval]; [now rewrite Ha | auto].
Qed.

Lemma dispose_never_revokes_witness :
  let t := set_approval (wire_25000 "TRX-002") "Night Desk" "2024-12-31T23:58:00" in
  let t' := set_risk t "high" ["First-time recipient"] in
  approved_by t' = Some "Night Desk" /\ approved t' = true /\ status t' = "APPROVED".
Proof.
  intros t t'. split; [reflexivity|].
  apply (dispose_never_revokes obedient
           (RiskAnalysis.mk "high" ["First-time recipient"] EmptyString) t t'
           (initial_world ["no"] sample_iso)
           (snd (dispose obedient (RiskAnalysis.mk "high" ["First-time recipient"] EmptyString)
                   t (initial_world ["no"] sample_iso)))).
  - vm_compute. reflexivity.
  - reflexivity.
Defined.

(** A finished batch has the transactions it was given, in their order,
    each with its identifier, account, type, amount, currency, recipient,
    time stamp and origin untouched. *)
Theorem process_transactions_same_identity (agent : Agent)
    (evaluator : Transaction -> Account.t -> M RiskAnalysis.t)
    (account : Account.t) (ts ts' : list Transaction) (w w' : World) :
  process_transactions agent evaluator account ts w = (Ok ts', w') ->
  Forall2 same_identity ts ts'.
Proof.
  revert ts' w w'. induction ts as [|t ts IH]; intros ts' w w' H.
  - injection H as <- _. constructor.
  - cbn [process_transactions] in H.
    apply bind_ok in H as (t1 & w1 & Ht & H).
    apply bind_ok in H as (rest' & w2 & Hrest & H).
    injection H as <- _.
    apply bind_ok in Ht as (ra & w0 & _ & Hd).
    constructor; [exact (dispose_same_identity _ _ _ _ _ _ Hd) | exact (IH _ _ _ Hrest)].
Qed.

Lemma process_transactions_same_identity_witness :
  Forall2 same_identity
    [transfer_1200; wire_25000 "TRX-002"]
    [set_approval transfer_1200 "Auto-approval System" (sample_iso 0);
     wire_25000 "TRX-002"].
Proof.
  apply (process_transactions_same_identity obedient analyze_transaction_risk
           get_mock_account _ _ (initial_world ["no"] sample_iso)
           (snd (process_transactions obedient analyze_transaction_risk get_mock_account
                   [transfer_1200; wire_25000 "TRX-002"]
                   (initial_world ["no"] sample_iso)))).
  vm_compute. reflexivity.
Defined.

(** A finished batch in which every transaction that came in approved had
    an approver and a date has that property for every transaction that
    goes out. *)
Theorem process_transactions_well_disposed (agent : Agent)
    (evaluator : Transaction -> Account.t -> M RiskAnalysis.t)
    (account : Account.t) (ts ts' : list Transaction) (w w' : World) :
  process_transactions agent evaluator account ts w = (Ok ts', w') ->
  Forall well_disposed ts ->
  Forall well_disposed ts'.
Proof.
  revert ts' w w'. induction ts as [|t ts IH]; intros ts' w w' H Hall.
  - injection H as <- _. constructor.
  - cbn [process_transactions] in H.
    apply bind_ok in H as (t1 & w1 & Ht & H).
    apply bind_ok in H as (rest' & w2 & Hrest & H).
    injection H as <- _.
    apply bind_ok in Ht as (ra & w0 & _ & Hd).
    inversion Hall as [|? ? Hwd Hall']; subst.
    constructor; [exact (dispose_well_disposed _ _ _ _ _ _ Hd Hwd) | exact (IH _ _ _ Hrest Hall')].
Qed.

Lemma process_transactions_well_disposed_witness :
  Forall well_disposed
    [set_approval transfer_1200 "Auto-approval System" (sample_iso 0);
     set_approval (wire_25000 "TRX-002") reviewer_name (sample_iso 1)].
Proof.
  apply (process_transactions_well_disposed obedient analyze_transaction_risk
           get_mock_account [transfer_1200; wire_25000 "TRX-002"] _
           (initial_world ["yes"] sample_iso)
           (snd (process_transactions obedient analyze_transaction_risk get_mock_account
                   [transfer_1200; wire_25000 "TRX-002"]
                   (initial_world ["yes"] sample_iso)))).
  - vm_compute. reflexivity.
  - repeat constructor; discriminate.
Defined.

(** Batches compose: a list in two parts is processed as the first part
    and then, from the world the first part leaves, the second; an
    exception in the first part ends the run there. *)
Theorem process_transactions_app (agent : Agent)
    (evaluator : Transaction -> Account.t -> M RiskAnalysis.t)
    (account : Account.t) (a b : list Transaction) (w : World) :
  process_transactions agent evaluator account (a ++ b)%list w =
    match process_transactions agent evaluator account a w with
    | (Ok a', w1) =>
        match process_transactions agent evaluator account b w1 with
        | (Ok b', w2) => (Ok (a' ++ b')%list, w2)
        | (Raise e, w2) => (Raise e, w2)
        end
    | (Raise e, w1) => (Raise e, w1)
    end.
Proof.
  revert w. induction a as [|t a IH]; intros w.
  - cbn [app process_transactions ret].
    destruct (process_transactions agent evaluator account b w) as [[b'|e] w2]; reflexivity.
  - cbn [app process_transactions]. unfold bind at 1 3.
    destruct (process_transaction agent evaluator account t w) as [[t'|e] w1]; [|reflexivity].
    unfold bind at 1 2. rewrite IH.
    destruct (process_transactions agent evaluator account a w1) as [[a'|e] w2]; [|reflexivity].
    cbn [ret].
    destruct (process_transactions agent evaluator account b w2) as [[b'|e] w3]; reflexivity.
Qed.


(** ** The loop under the program's own evaluator (lines 197-208, 296-360) *)

Lemma labelled_high_false (t : Transaction) :
  risk_level t <> "high" -> labelled_high t = false.
Proof.
  intros H. unfold labelled_high.
  destruct (String.eqb_spec (risk_level t) "high"); [contradiction | reflexivity].
Qed.

Lemma mock_step_other (agent : Agent) (account : Account.t) (t : Transaction)
    (w : World) :
  labelled_high t = false ->
  process_transaction agent analyze_transaction_risk account t w
  = (Ok (set_approval (set_risk t "low" []) "Auto-approval System"
           (now_iso w (clock w))),
     mkWorld (stdin w) (now_iso w) (S (clock w)) (stream w) (unseen w) (inbox w)).
Proof.
  unfold labelled_high, process_transaction, analyze_transaction_risk, bind.
  now intros ->.
Qed.

Lemma label_not_high_step (agent : Agent) (account : Account.t)
    (t : Transaction) (w : World) :
  risk_level t <> "high" ->
  process_transaction agent analyze_transaction_risk account t w
  = (Ok (set_approval (set_risk t "low" []) "Auto-approval System"
           (now_iso w (clock w))),
     mkWorld (stdin w) (now_iso w) (S (clock w)) (stream w) (unseen w) (inbox w)).
Proof.
  intros H. apply mock_step_other. now apply labelled_high_false.
Qed.

Lemma mock_step_high (agent : Agent) (account : Account.t) (t : Transaction)
    (w : World) :
  labelled_high t = true ->
  process_transaction agent analyze_transaction_risk account t w
  = human_confirmation agent (set_risk t "high" (risk_factors t)) w.
Proof.
  unfold labelled_high, process_transaction, analyze_transaction_risk, bind.
  now intros ->.
Qed.

Lemma prompts_snoc (evs : list Event) (t : Transaction) :
  length (prompts (evs ++ [session_prompt t])) = S (length (prompts evs)).
Proof.
  rewrite prompts_app, length_app. cbn. lia.
Qed.

(** One turn for a transaction labelled "high" with a reply at hand, under
    an agent that relays. *)
Lemma mock_step_high_reply (agent : Agent) (account : Account.t)
    (t : Transaction) (w : World) (raw : string) (rest : list string) :
  relays agent ->
  labelled_high t = true -> stdin w = raw :: rest ->
  exists t1 w1,
    process_transaction agent analyze_transaction_risk account t w = (Ok t1, w1) /\
    stdin w1 = rest /\
    length (prompts (stream w1)) = S (length (prompts (stream w))) /\
    risk_level t1 = "high" /\ risk_factors t1 = risk_factors t.
Proof.
  intros Hrel Hh Hin. rewrite (mock_step_high _ _ _ _ Hh).
  rewrite (human_confirmation_reply _ _ _ _ _ Hrel Hin).
  destruct (contains "approved" _); eexists; eexists;
    (split; [reflexivity|]); cbn [stdin stream]; rewrite prompts_snoc;
    repeat split.
Qed.

Lemma mock_step_high_no_reply (agent : Agent) (account : Account.t)
    (t : Transaction) (w : World) :
  relays agent ->
  labelled_high t = true -> stdin w = [] ->
  exists w1,
    process_transaction agent analyze_transaction_risk account t w
    = (Raise EOFError, w1) /\
    stdin w1 = [] /\
    length (prompts (stream w1)) = S (length (prompts (stream w))).
Proof.
  intros Hrel Hh Hin. rewrite (mock_step_high _ _ _ _ Hh).
  rewrite (human_confirmation_no_reply _ _ _ Hrel Hin).
  eexists. split; [reflexivity|]. cbn [stdin stream]. now rewrite prompts_snoc.
Qed.

(** Under the program's evaluator every transaction whose label is not
    exactly "high" is approved without a question, whatever the label says
    and whatever the agent would do: its level is rewritten to "low", its
    risk factors are dropped, nothing is written to the stream and nothing
    is read from the keyboard. *)
Theorem label_not_high_auto_approved (agent : Agent) (account : Account.t)
    (t : Transaction) (w : World) :
  risk_level t <> "high" ->
  process_transaction agent analyze_transaction_risk account t w
  = (Ok (set_approval (set_risk t "low" []) "Auto-approval System"
           (now_iso w (clock w))),
     mkWorld (stdin w) (now_iso w) (S (clock w)) (stream w) (unseen w) (inbox w)).
Proof.
  intros H. apply mock_step_other. now apply labelled_high_false.
Qed.

Lemma label_not_high_auto_approved_witness :
  fst (process_transaction obedient analyze_transaction_risk get_mock_account
         (set_risk (wire_25000 "TRX-009") "High" ["Unusual destination country"])
         (initial_world [] sample_iso))
  = Ok (set_approval (set_risk (wire_25000 "TRX-009") "low" [])
          "Auto-approval System" (sample_iso 0)).
Proof.
  rewrite (label_not_high_auto_approved obedient get_mock_account
             (set_risk (wire_25000 "TRX-009") "High" ["Unusual destination country"])
             (initial_world [] sample_iso)).
  - reflexivity.
  - discriminate.
Defined.

(** Of the four declared risk levels LOW and MEDIUM pass the test of line
    313, HIGH and CRITICAL do not; but under the program's evaluator a
    transaction labelled with a declared level is handed to the agent's
    workflow only when that level is HIGH: labelled LOW, MEDIUM or CRITICAL
    it is approved automatically, with nothing written and nothing read. *)
Theorem declared_levels_routing (level : RiskLevel) (agent : Agent)
    (account : Account.t) (t : Transaction) (w : World) :
  (auto_approvable (RiskLevel_value level) = true <-> level = LOW \/ level = MEDIUM) /\
  process_transaction agent analyze_transaction_risk account (labelled level t) w
  = match level with
    | HIGH => human_confirmation agent (labelled HIGH t) w
    | _ =>
        (Ok (set_approval (set_risk t "low" []) "Auto-approval System"
               (now_iso w (clock w))),
         mkWorld (stdin w) (now_iso w) (S (clock w)) (stream w) (unseen w) (inbox w))
    end.
Proof.
  split.
  - destruct level; cbn; intuition discriminate.
  - destruct level.
    1,2,4: now rewrite mock_step_other by reflexivity.
    now rewrite mock_step_high by reflexivity.
Qed.

(** The evaluator's verdict depends on the transaction alone, not on the
    account nor on the state of the world, which it leaves as it is; and it
    is stable: assessing again a transaction that carries its verdict (as
    lines 305-306 write it) gives the same verdict. *)
Theorem analyze_transaction_risk_stable (t : Transaction) :
  exists ra,
    (forall account w, analyze_transaction_risk t account w = (Ok ra, w)) /\
    (forall account w,
       analyze_transaction_risk
         (set_risk t (RiskAnalysis.risk_level ra) (RiskAnalysis.risk_factors ra))
         account w = (Ok ra, w)).
Proof.
  unfold analyze_transaction_risk.
  destruct (String.eqb (risk_level t) "high"); eexists; split; reflexivity.
Qed.

Lemma mock_step_verdict (agent : Agent) (account : Account.t)
    (t t1 : Transaction) (w w1 : World) :
  process_transaction agent analyze_transaction_risk account t w = (Ok t1, w1) ->
  risk_level t1 = (if labelled_high t then "high" else "low") /\
  risk_factors t1 = (if labelled_high t then risk_factors t else []).
Proof.
  intros H. unfold process_transaction in H.
  apply bind_ok in H as (ra & w0 & Hra & Hd).
  assert (Hv : RiskAnalysis.risk_level ra = (if labelled_high t then "high" else "low") /\
               RiskAnalysis.risk_factors ra
               = (if labelled_high t then risk_factors t else [])).
  { unfold analyze_transaction_risk, labelled_high in *.
    destruct (String.eqb (risk_level t) "high"); injection Hra as <- _; now split. }
  destruct Hv as [Hl Hf].
  destruct (dispose_cases _ _ _ _ _ _ Hd) as [-> | (who & date & ->)];
    cbn [risk_level risk_factors set_risk set_approval]; now split.
Qed.

(** Under an agent that relays, with at least as many lines on the
    keyboard as there are transactions labelled "high", the batch finishes:
    it returns as many transactions as it was given, has written one prompt
    and read one line for each transaction labelled "high", and leaves the
    other lines unread. *)
Theorem batch_finishes_with_enough_replies (agent : Agent) (account : Account.t)
    (ts : list Transaction) (w : World) :
  relays agent ->
  length (filter labelled_high ts) <= length (stdin w) ->
  exists ts' w',
    process_transactions agent analyze_transaction_risk account ts w = (Ok ts', w') /\
    length ts' = length ts /\
    stdin w' = skipn (length (filter labelled_high ts)) (stdin w) /\
    length (prompts (stream w'))
    = length (prompts (stream w)) + length (filter labelled_high ts).
Proof.
  intros Hrel. revert w. induction ts as [|t ts IH]; intros w Hn.
  - exists [], w. cbn. repeat split. lia.
  - cbn [process_transactions filter] in *. unfold bind at 1.
    destruct (labelled_high t) eqn:Hh.
    + cbn [length] in Hn.
      destruct (stdin w) as [|raw rest] eqn:Hin; [cbn in Hn; lia|].
      destruct (mock_step_high_reply agent account t w raw rest Hrel Hh Hin)
        as (t1 & w1 & -> & Hin1 & Hp1 & _).
      destruct (IH w1) as (ts' & w' & E & Hlen & Hin' & Hp').
      { rewrite Hin1. cbn in Hn. lia. }
      exists (t1 :: ts'), w'. unfold bind. rewrite E. cbn [ret length skipn].
      rewrite Hlen, Hin', Hin1, Hp', Hp1. repeat split. lia.
    + rewrite (mock_step_other _ _ _ _ Hh).
      destruct (IH (mkWorld (stdin w) (now_iso w) (S (clock w)) (stream w)
                      (unseen w) (inbox w)) Hn)
        as (ts' & w' & E & Hlen & Hin' & Hp').
      eexists (_ :: ts'), w'. unfold bind. rewrite E. cbn [ret length].
      rewrite Hlen, Hin', Hp'. repeat split.
Qed.

Lemma batch_finishes_with_enough_replies_witness :
  exists ts' w',
    process_transactions obedient analyze_transaction_risk get_mock_account
      [wire_25000 "TRX-002"; transfer_1200; wire_25000 "TRX-004"]
      (initial_world ["yes"; "no"; "left over"] sample_iso) = (Ok ts', w') /\
    length ts' = 3 /\ stdin w' = ["left over"] /\
    length (prompts (stream w')) = 2.
Proof.
  exact (batch_finishes_with_enough_replies obedient get_mock_account
           [wire_25000 "TRX-002"; transfer_1200; wire_25000 "TRX-004"]
           (initial_world ["yes"; "no"; "left over"] sample_iso)
           obedient_relays (le_S _ _ (le_n 2))).
Defined.

(** Under an agent that relays, with fewer lines than transactions
    labelled "high", the batch ends in [EOFError] at the first transaction
    left without a reply: every line has been read, one prompt more than
    there were lines has been written, and no list of transactions is
    returned. *)
Theorem batch_stops_without_reply (agent : Agent) (account : Account.t)
    (ts : list Transaction) (w : World) :
  relays agent ->
  length (stdin w) < length (filter labelled_high ts) ->
  exists w',
    process_transactions agent analyze_transaction_risk account ts w
    = (Raise EOFError, w') /\
    stdin w' = [] /\
    length (prompts (stream w'))
    = length (prompts (stream w)) + S (length (stdin w)).
Proof.
  intros Hrel. revert w. induction ts as [|t ts IH]; intros w Hn.
  - cbn in Hn. lia.
  - cbn [process_transactions filter] in *. unfold bind at 1.
    destruct (labelled_high t) eqn:Hh.
    + cbn [length] in Hn.
      destruct (stdin w) as [|raw rest] eqn:Hin.
      * destruct (mock_step_high_no_reply agent account t w Hrel Hh Hin)
          as (w1 & -> & Hin1 & Hp1).
        exists w1. cbn [length]. repeat split; [exact Hin1 | lia].
      * destruct (mock_step_high_reply agent account t w raw rest Hrel Hh Hin)
          as (t1 & w1 & -> & Hin1 & Hp1 & _).
        destruct (IH w1) as (w' & E & Hin' & Hp').
        { rewrite Hin1. cbn in Hn. lia. }
        exists w'. unfold bind. rewrite E. repeat split; [exact Hin'|].
        rewrite Hp', Hp1, Hin1. cbn [length]. lia.
    + rewrite (mock_step_other _ _ _ _ Hh).
      destruct (IH (mkWorld (stdin w) (now_iso w) (S (clock w)) (stream w)
                      (unseen w) (inbox w)) Hn)
        as (w' & E & Hin' & Hp').
      exists w'. unfold bind. rewrite E. repeat split; [exact Hin' | exact Hp'].
Qed.

Lemma batch_stops_without_reply_witness :
  exists w',
    process_transactions obedient analyze_transaction_risk get_mock_account
      [transfer_1200; wire_25000 "TRX-002"; wire_25000 "TRX-004"]
      (initial_world ["yes"] sample_iso) = (Raise EOFError, w') /\
    stdin w' = [] /\ length (prompts (stream w')) = 2.
Proof.
  exact (batch_stops_without_reply obedient get_mock_account
           [transfer_1200; wire_25000 "TRX-002"; wire_25000 "TRX-004"]
           (initial_world ["yes"] sample_iso) obedient_relays (le_n 2)).
Defined.

(** After a finished batch every transaction carries the evaluator's
    verdict in place of its label, whatever the agent did: "high" with its
    own risk factors when it was labelled "high", "low" with no risk
    factors otherwise. *)
Theorem batch_records_verdicts (agent : Agent) (account : Account.t)
    (ts ts' : list Transaction) (w w' : World) :
  process_transactions agent analyze_transaction_risk account ts w = (Ok ts', w') ->
  Forall2 (fun t t' =>
             risk_level t' = (if labelled_high t then "high" else "low") /\
             risk_factors t' = (if labelled_high t then risk_factors t else []))
          ts ts'.
Proof.
  revert ts' w w'. induction ts as [|t ts IH]; intros ts' w w' H.
  - injection H as <- _. constructor.
  - cbn [process_transactions] in H.
    apply bind_ok in H as (t1 & w1 & Ht & H).
    apply bind_ok in H as (rest' & w2 & Hrest & H).
    injection H as <- _.
    constructor; [exact (mock_step_verdict _ _ _ _ _ _ Ht) | exact (IH _ _ _ Hrest)].
Qed.

Lemma batch_records_verdicts_witness :
  Forall2 (fun t t' =>
             risk_level t' = (if labelled_high t then "high" else "low") /\
             risk_factors t' = (if labelled_high t then risk_factors t else []))
    [set_risk transfer_1200 "medium" ["New device"]]
    [set_approval (set_risk transfer_1200 "low" []) "Auto-approval System"
       (sample_iso 0)].
Proof.
  apply (batch_records_verdicts hasty get_mock_account
           [set_risk transfer_1200 "medium" ["New device"]] _
           (initial_world [] sample_iso)
           (snd (process_transactions hasty analyze_transaction_risk get_mock_account
                   [set_risk transfer_1200 "medium" ["New device"]]
                   (initial_world [] sample_iso)))).
  vm_compute. reflexivity.
Defined.

(** ** The summary (lines 363-372) *)

Lemma summary_lines_length (t : Transaction) :
  length (summary_lines t) = if approved t then 6 else 4.
Proof.
  unfold summary_lines. destruct (approved t); reflexivity.
Qed.

(** The summary has its heading, four lines for every transaction and two
    more for every approved one. *)
Theorem transaction_summary_length (ts : list Transaction) :
  length (transaction_summary ts)
  = 1 + 4 * length ts + 2 * length (filter approved ts).
Proof.
  unfold transaction_summary. cbn [length].
  induction ts as [|t ts IH]; [reflexivity|].
  cbn [flat_map filter]. rewrite length_app, summary_lines_length.
  destruct (approved t); cbn [length]; lia.
Qed.

(** ** What a run leaves alone *)

Lemma preserves_bind {A B C : Type} (f : World -> C) (c : M A) (k : A -> M B) :
  preserves f c -> (forall a, preserves f (k a)) -> preserves f (bind c k).
Proof.
  intros Hc Hk w. unfold bind. specialize (Hc w).
  destruct (c w) as [[a|e] w1]; cbn [snd] in *; [|exact Hc].
  now rewrite (Hk a w1).
Qed.

Lemma preserves_ret {A C : Type} (f : World -> C) (a : A) : preserves f (ret a).
Proof.
  intros w. reflexivity.
Qed.

Lemma input_records : preserves records input.
Proof.
  intros [inp iso clk str uns inb]. unfold input. cbn [stdin].
  destruct inp; reflexivity.
Qed.

Lemma answer_events_records (evs : list Event) : preserves records (answer_events evs).
Proof.
  induction evs as [|ev evs IH]; [apply preserves_ret|].
  cbn [answer_events]. apply preserves_bind; [|intros _; exact IH].
  destruct (is_InputRequiredEvent ev); [|apply preserves_ret].
  apply preserves_bind; [apply input_records|].
  intros response w. reflexivity.
Qed.

Lemma wait_for_event_records (user_name : string) :
  preserves records (wait_for_event user_name).
Proof.
  unfold wait_for_event. apply preserves_bind; [intros w; reflexivity|].
  intros evs. apply preserves_bind; [apply answer_events_records|].
  intros _ w. destruct (take_matching user_name (inbox w)) as [[ev rest]|]; reflexivity.
Qed.

(** A call of the tool appends its one prompt to the stream, whether the
    reply comes or not, and leaves the clock alone. *)
Lemma confirm_transaction_records (transaction_id : string) (amount : PyFloat)
    (currency transaction_type recipient risk_level : string)
    (risk_factors : list string) (reviewer : string) (w : World) :
  records (snd (confirm_transaction transaction_id amount currency
                  transaction_type recipient risk_level risk_factors reviewer w))
  = (clock w, now_iso w,
     (stream w ++ [confirmation_event transaction_id amount currency
                     transaction_type recipient risk_level risk_factors reviewer])%list).
Proof.
  unfold confirm_transaction. unfold bind at 1. unfold write_event_to_stream at 1.
  pose proof (preserves_bind records (wait_for_event reviewer)
                (fun response =>
                   ret (decide (event_response response) transaction_id amount
                          currency reviewer))
                (wait_for_event_records reviewer)
                (fun a => preserves_ret records _)) as H.
  now rewrite H.
Qed.

Lemma run_conduct_timing (c : Conduct) : preserves timing (run_conduct c).
Proof.
  induction c as [text|kwargs next IH|message]; cbn [run_conduct].
  - apply preserves_ret.
  - apply preserves_bind; [|exact IH].
    intros w. unfold call_confirm_transaction.
    pose proof (confirm_transaction_records
                  (ContextDict.transaction_id kwargs) (ContextDict.amount kwargs)
                  (ContextDict.currency kwargs) (ContextDict.transaction_type kwargs)
                  (ContextDict.recipient kwargs) (ContextDict.risk_level kwargs)
                  (ContextDict.risk_factors kwargs) (ContextDict.reviewer_name kwargs)
                  w) as H.
    unfold records in H. injection H as Hc Hn _. unfold timing. now rewrite Hc, Hn.
  - intros w. reflexivity.
Qed.

Lemma workflow_run_timing (agent : Agent) (user_msg : string) (cd : ContextDict.t) :
  preserves timing (workflow_run agent user_msg cd).
Proof.
  unfold workflow_run. apply preserves_bind; [intros w; reflexivity|].
  intros _. apply run_conduct_timing.
Qed.

(** ** What the prompt shows (lines 223-245) *)

Lemma contains_prefix (p r : string) : contains p (p ++ r) = true.
Proof.
  exact (contains_intro p EmptyString r).
Qed.

Lemma contains_self (p : string) : contains p p = true.
Proof.
  rewrite <- (append_nil_r p) at 2. apply contains_prefix.
Qed.

Lemma join_contains (sep f : string) (l : list string) :
  In f l -> contains f (join sep l) = true.
Proof.
  induction l as [|x l IH]; intros H; [contradiction|].
  destruct l as [|y l].
  - destruct H as [-> | []]. apply contains_self.
  - change (join sep (x :: y :: l)) with (x ++ sep ++ join sep (y :: l)).
    destruct H as [-> | H].
    + apply contains_prefix.
    + do 2 apply contains_app_r. exact (IH H).
Qed.

(** Whatever arguments the tool is called with and whatever the state of
    the world, the call appends exactly one event to the stream, before it
    waits for the reply: a prompt addressed to the reviewer named in the
    call, whose text quotes the identifier, type, amount, currency and
    recipient passed, every risk factor passed, and the reviewer's name. *)
Theorem confirm_transaction_prompt_quotes (transaction_id : string)
    (amount : PyFloat) (currency transaction_type recipient risk_level : string)
    (risk_factors : list string) (reviewer : string) (w : World) :
  exists text,
    stream (snd (confirm_transaction transaction_id amount currency
                   transaction_type recipient risk_level risk_factors reviewer w))
    = (stream w ++ [InputRequiredEvent text reviewer])%list /\
    contains transaction_id text = true /\
    contains transaction_type text = true /\
    contains amount text = true /\
    contains currency text = true /\
    contains recipient text = true /\
    (forall f, In f risk_factors -> contains f text = true) /\
    contains reviewer text = true.
Proof.
  eexists. split.
  - pose proof (confirm_transaction_records transaction_id amount currency
                  transaction_type recipient risk_level risk_factors reviewer w) as H.
    unfold records in H. injection H as _ _ Hs. rewrite Hs. reflexivity.
  - unfold confirmation_text. repeat split.
    + apply contains_app_l. do 6 apply contains_app_r. apply contains_prefix.
    + apply contains_app_l. do 9 apply contains_app_r. apply contains_prefix.
    + apply contains_app_l. do 12 apply contains_app_r. apply contains_prefix.
    + apply contains_app_l. do 14 apply contains_app_r. apply contains_prefix.
    + apply contains_app_l. do 17 apply contains_app_r. apply contains_prefix.
    + intros f Hf. apply contains_app_l. do 29 apply contains_app_r.
      apply contains_app_l.
      destruct risk_factors as [|x l] eqn:E; [contradiction|].
      apply join_contains. exact Hf.
    + do 3 apply contains_app_r. apply contains_prefix.
Qed.

(** ** Levels that are neither low nor medium (line 313) *)

Lemma dispose_review_outcome (agent : Agent) (ra : RiskAnalysis.t)
    (t t' : Transaction) (w w' : World) :
  auto_approvable (RiskAnalysis.risk_level ra) = false ->
  dispose agent ra t w = (Ok t', w') ->
  let t0 := set_risk t (RiskAnalysis.risk_level ra) (RiskAnalysis.risk_factors ra) in
  (t' = t0 /\ clock w' = clock w)
  \/ (t' = set_approval t0 reviewer_name (now_iso w (clock w)) /\ clock w' = S (clock w)).
Proof.
  intros Hlvl H t0. rewrite (dispose_review _ _ _ Hlvl) in H. fold t0 in H.
  unfold human_confirmation, bind in H.
  pose proof (workflow_run_timing agent
                ("Review this high-risk " ++ transaction_type t0
                   ++ " transaction for " ++ amount t0 ++ " " ++ currency t0
                   ++ " to " ++ recipient t0)
                (ContextDict.mk (transaction_id t0) (amount t0) (currency t0)
                   (transaction_type t0) (recipient t0) (risk_level t0)
                   (risk_factors t0) reviewer_name) w) as Ht.
  destruct (workflow_run agent _ _ w) as [[response|e] w1]; [|discriminate].
  cbn [snd] in Ht. unfold timing in Ht. injection Ht as Hc Hn.
  destruct (contains "approved" (lower response)).
  - unfold datetime_now_isoformat, ret in H. injection H as <- <-.
    right. cbn [clock]. now rewrite Hc, Hn.
  - unfold ret in H. injection H as <- <-. left. now split.
Qed.

(** A verdict whose level is anything but "low" or "medium" (a declared
    level, an unknown word, the empty text) is never approved
    automatically: whatever the agent does, the transaction comes back with
    its disposition as it was, or approved in the reviewer's name; and the
    auto-approval's clock reading is not made before the workflow runs. *)
Theorem other_levels_never_auto_approved (agent : Agent) (ra : RiskAnalysis.t)
    (t t' : Transaction) (w w' : World) :
  auto_approvable (RiskAnalysis.risk_level ra) = false ->
  dispose agent ra t w = (Ok t', w') ->
  let t0 := set_risk t (RiskAnalysis.risk_level ra) (RiskAnalysis.risk_factors ra) in
  (t' = t0 /\ clock w' = clock w)
  \/ (t' = set_approval t0 reviewer_name (now_iso w (clock w)) /\ clock w' = S (clock w)).
Proof.
  intros Hlvl H. exact (dispose_review_outcome agent ra t t' w w' Hlvl H).
Qed.

Lemma other_levels_never_auto_approved_witness :
  let t0 := set_risk (wire_25000 "TRX-002") "unknown" [] in
  (t0 = t0 /\ 0 = 0)
  \/ (t0 = set_approval t0 reviewer_name (sample_iso 0) /\ 0 = 1).
Proof.
  exact (other_levels_never_auto_approved obedient
           (RiskAnalysis.mk "unknown" [] EmptyString) (wire_25000 "TRX-002")
           (set_risk (wire_25000 "TRX-002") "unknown" [])
           (initial_world ["no"] sample_iso)
           (mkWorld [] sample_iso 0
              [session_prompt (set_risk (wire_25000 "TRX-002") "unknown" [])] [] [])
           eq_refl eq_refl).
Defined.

(** ** The program as shipped (lines 281-372) *)

(** main on its two mock transactions, whatever the agent does, whatever
    is typed and whatever the clock shows: a run that finishes returns
    TRX-001 approved by "Auto-approval System" and TRX-002, assessed
    "high", either unapproved with no approver (listed REJECTED) or
    approved in the reviewer's name (listed APPROVED); the summary is the
    one of these two transactions. *)
Theorem main_outcome (agent : Agent) (keyboard : list string) (iso : nat -> string)
    (ts : list Transaction) (summary : list string) (w' : World) :
  main agent (initial_world keyboard iso) = (Ok (ts, summary), w') ->
  summary = transaction_summary ts /\
  exists t1 t2,
    ts = [t1; t2] /\
    transaction_id t1 = "TRX-001" /\ status t1 = "APPROVED" /\
    approved_by t1 = Some "Auto-approval System" /\
    transaction_id t2 = "TRX-002" /\ risk_level t2 = "high" /\
    (status t2 = "REJECTED" /\ approved_by t2 = None
     \/ status t2 = "APPROVED" /\ approved_by t2 = Some reviewer_name).
Proof.
  unfold main, initial_world, get_mock_transactions, datetime_now_isoformat.
  unfold bind at 1 2 3. cbn [ret now_iso clock stdin stream unseen inbox].
  cbn [process_transactions]. unfold bind at 1 2.
  rewrite mock_step_other by reflexivity.
  cbn [stdin now_iso clock stream unseen inbox]. unfold bind at 1 2.
  rewrite mock_step_high by reflexivity.
  match goal with
  | |- context [human_confirmation agent ?t ?w] =>
      destruct (human_confirmation agent t w) as [[t2|e] w2] eqn:E
  end; [|discriminate].
  unfold ret. intros H. injection H as <- <- _. split; [reflexivity|].
  do 2 eexists. split; [reflexivity|].
  destruct (human_confirmation_cases _ _ _ _ _ E) as [-> | (date & ->)];
    repeat split; auto.
Qed.

Lemma main_outcome_witness :
  exists t1 t2,
    [set_approval
       (mkTransaction "TRX-001" "ACC-12345" "transfer" "1200.0" "USD"
          "Jane Smith" "ACC-67890" (sample_iso 0) "New York, USA" "192.168.1.1"
          "DEVICE-001" "low" [] false None None)
       "Auto-approval System" (sample_iso 2);
     mkTransaction "TRX-002" "ACC-12345" "wire" "25000.0" "USD"
       "Acme Corp" "ACC-99999" (sample_iso 1) "Lagos, Nigeria" "203.0.113.42"
       "DEVICE-002" "high"
       [ "Unusual destination country";
         "Amount exceeds typical transaction";
         "First-time recipient";
         "Unusual time of day" ]
       false None None]
    = [t1; t2] /\
    transaction_id t1 = "TRX-001" /\ status t1 = "APPROVED" /\
    approved_by t1 = Some "Auto-approval System" /\
    transaction_id t2 = "TRX-002" /\ risk_level t2 = "high" /\
    (status t2 = "REJECTED" /\ approved_by t2 = None
     \/ status t2 = "APPROVED" /\ approved_by t2 = Some reviewer_name).
Proof.
  refine (proj2 (main_outcome obedient ["no"] sample_iso _ _
                   (snd (main obedient (initial_world ["no"] sample_iso))) _)).
  vm_compute. reflexivity.
Defined.



(** ** Replies, clock and errors across a batch *)




(** One turn under the program's evaluator, seen from the clock, whatever
    the agent does. *)
Lemma mock_step_clock (agent : Agent) (account : Account.t)
    (t t1 : Transaction) (w w1 : World) :
  process_transaction agent analyze_transaction_risk account t w = (Ok t1, w1) ->
  approved t = false ->
  clock w1 = clock w + if approved t1 then 1 else 0.
Proof.
  intros H Ha. destruct (labelled_high t) eqn:Hh.
  - unfold process_transaction, bind in H.
    assert (E : analyze_transaction_risk t account w
                = (Ok (RiskAnalysis.mk "high" (risk_factors t) high_risk_explanation), w)).
    { unfold analyze_transaction_risk, labelled_high in *. now rewrite Hh. }
    rewrite E in H.
    destruct (dispose_review_outcome agent
                (RiskAnalysis.mk "high" (risk_factors t) high_risk_explanation)
                t t1 w w1 eq_refl H)
      as [[-> ->] | [-> ->]]; cbn [approved set_risk set_approval].
    + rewrite Ha. lia.
    + lia.
  - rewrite (mock_step_other _ _ _ _ Hh) in H.
    injection H as <- <-. cbn [clock approved set_approval]. lia.
Qed.

(** The clock is read once for each approval and never otherwise, whatever
    the agent does: after a finished batch of transactions that came in
    unapproved, the clock has advanced by the number of transactions that
    go out approved. *)
Theorem batch_clock_counts_approvals (agent : Agent) (account : Account.t)
    (ts ts' : list Transaction) (w w' : World) :
  process_transactions agent analyze_transaction_risk account ts w = (Ok ts', w') ->
  Forall (fun t => approved t = false) ts ->
  clock w' = clock w + length (filter approved ts').
Proof.
  revert ts' w w'. induction ts as [|t ts IH]; intros ts' w w' H Hall.
  - injection H as <- <-. cbn. lia.
  - cbn [process_transactions] in H.
    apply bind_ok in H as (t1 & w1 & Ht & H).
    apply bind_ok in H as (rest' & w2 & Hrest & H).
    injection H as <- <-.
    inversion Hall as [|? ? Ha Hall']; subst.
    rewrite (IH _ _ _ Hrest Hall').
    rewrite (mock_step_clock _ _ _ _ _ _ Ht Ha).
    cbn [filter]. destruct (approved t1); cbn [length]; lia.
Qed.

Lemma batch_clock_counts_approvals_witness :
  2 = 1 + length (filter approved
                    [wire_25000 "TRX-002";
                     set_approval transfer_1200 "Auto-approval System"
                       (sample_iso 1)]).
Proof.
  apply (batch_clock_counts_approvals obedient get_mock_account
           [wire_25000 "TRX-002"; transfer_1200]
           [wire_25000 "TRX-002";
            set_approval transfer_1200 "Auto-approval System" (sample_iso 1)]
           (mkWorld ["investigate"] sample_iso 1 [] [] [])
           (mkWorld [] sample_iso 2 [session_prompt (wire_25000 "TRX-002")] [] [])).
  - vm_compute. reflexivity.
  - repeat constructor.
Defined.

(** A batch in which no transaction is labelled "high" never fails and
    never involves the agent or the reviewer: under the program's
    evaluator it finishes with every transaction approved by
    "Auto-approval System", nothing written to the stream and nothing read
    from the keyboard. *)
Theorem batch_without_high_never_fails (agent : Agent) (account : Account.t)
    (ts : list Transaction) (w : World) :
  Forall (fun t => risk_level t <> "high") ts ->
  exists ts',
    process_transactions agent analyze_transaction_risk account ts w
    = (Ok ts',
       mkWorld (stdin w) (now_iso w) (clock w + length ts) (stream w)
         (unseen w) (inbox w)) /\
    length ts' = length ts /\
    Forall (fun t' => approved t' = true /\
                      approved_by t' = Some "Auto-approval System") ts'.
Proof.
  revert w. induction ts as [|t ts IH]; intros w Hall.
  - exists []. destruct w. cbn. rewrite Nat.add_0_r. repeat split. constructor.
  - inversion Hall as [|? ? Ht Hall']; subst.
    cbn [process_transactions]. unfold bind at 1.
    rewrite (label_not_high_step agent account t w Ht).
    destruct (IH (mkWorld (stdin w) (now_iso w) (S (clock w)) (stream w)
                    (unseen w) (inbox w)) Hall') as (ts' & E & Hlen & Hts').
    eexists. unfold bind. rewrite E. cbn [ret stdin now_iso clock stream unseen inbox].
    split; [|split].
    + cbn [length]. now rewrite <- Nat.add_succ_comm.
    + cbn [length]. now rewrite Hlen.
    + constructor; [now split | exact Hts'].
Qed.

Lemma batch_without_high_never_fails_witness :
  exists ts',
    process_transactions hasty analyze_transaction_risk get_mock_account
      [transfer_1200; set_risk (wire_25000 "TRX-002") "critical" []]
      (initial_world ["typed"] sample_iso)
    = (Ok ts', mkWorld ["typed"] sample_iso 2 [] [] []) /\
    length ts' = 2 /\
    Forall (fun t' => approved t' = true /\
                      approved_by t' = Some "Auto-approval System") ts'.
Proof.
  apply (batch_without_high_never_fails hasty get_mock_account
           [transfer_1200; set_risk (wire_25000 "TRX-002") "critical" []]
           (initial_world ["typed"] sample_iso)).
  repeat constructor; discriminate.
Defined.

(** ** main's loop over the handler's events (lines 340-350) *)

(** The loop answers every [InputRequiredEvent] once, in order, with the
    next line of the keyboard and under the name the event carries; it
    passes over every other event, and touches neither the clock nor the
    stream. *)
Theorem answer_events_answers_each_prompt (evs : list Event) (w : World) :
  length (prompts evs) <= length (stdin w) ->
  answer_events evs w
  = (Ok tt,
     mkWorld (skipn (length (prompts evs)) (stdin w)) (now_iso w) (clock w)
       (stream w) (unseen w) (inbox w ++ replies_to evs (stdin w))).
Proof.
  unfold prompts. revert w. induction evs as [|ev evs IH]; intros w Hn.
  - destruct w. cbn. now rewrite app_nil_r.
  - cbn [answer_events filter replies_to] in *.
    destruct (is_InputRequiredEvent ev) eqn:Hev.
    + destruct w as [inp iso clk str uns inb]. cbn [stdin length] in *.
      destruct inp as [|line lines]; [cbn in Hn; lia|].
      unfold bind at 1 2. unfold input at 1. cbn [stdin]. unfold send_event at 1.
      cbn [stdin now_iso clock stream unseen inbox].
      rewrite IH by (cbn [stdin length] in *; lia).
      cbn [stdin now_iso clock stream unseen inbox skipn].
      now rewrite <- app_assoc.
    + unfold bind at 1. unfold ret at 1. now rewrite IH.
Qed.

Lemma answer_events_answers_each_prompt_witness :
  answer_events
    [InputRequiredEvent "first?" "Ann"; HumanResponseEvent "noise" "Bob";
     InputRequiredEvent "second?" "Cy"]
    (initial_world ["yes"; "no"; "spare"] sample_iso)
  = (Ok tt,
     mkWorld ["spare"] sample_iso 0 [] []
       [HumanResponseEvent "yes" "Ann"; HumanResponseEvent "no" "Cy"]).
Proof.
  exact (answer_events_answers_each_prompt
           [InputRequiredEvent "first?" "Ann"; HumanResponseEvent "noise" "Bob";
            InputRequiredEvent "second?" "Cy"]
           (initial_world ["yes"; "no"; "spare"] sample_iso)
           (le_S _ _ (le_n 2))).
Defined.
